(** * Book catalog: storage backends, Open Library client and enrichment merge

    A shallow embedding of [app/crud/file_book.py], [app/crud/jsonbin_book.py],
    [app/crud/book.py] ([BookRepository]), [app/integrations/open_library.py]
    and [app/interface/base_api_client.py]. *)

From Stdlib Require Import ZArith Lia Ascii.
From stdpp Require Import base gmap strings list pretty.

Local Open Scope string_scope.
Local Open Scope list_scope.
Local Open Scope Z_scope.

(** ** Data model *)

Local Set Warnings "-register-all".

(** A JSON / Python value as the code handles it: [json.load] output and
    the dicts the CRUD classes build.  Python floats are only ever copied
    and tested against [None] or for truthiness by this code; [JFloat f]
    carries an opaque payload in which [0] stands for [0.0]. *)
Inductive json : Type :=
| JNull
| JBool (b : bool)
| JInt (z : Z)
| JFloat (f : Z)
| JStr (s : string)
| JArr (l : list json)
| JObj (fields : list (string * json)).

(** A stored record: one dict of the JSON array. *)
Abbreviation item := (gmap string json).

(** Python exceptions that the modelled code raises or propagates. *)
Inductive exn : Type :=
| KeyError
| TypeError
| AttributeError
| ValueError
| RuntimeError
| SQLAlchemyError.

(** A computation that returns a value or raises. *)
Inductive res (A : Type) : Type :=
| Ok (a : A)
| Raise (e : exn).
Arguments Ok {A} a.
Arguments Raise {A} e.

Definition rbind {A B} (m : res A) (k : A -> res B) : res B :=
  match m with Ok a => k a | Raise e => Raise e end.

Notation "'let?' x ':=' m 'in' k" := (rbind m (fun x => k))
  (at level 200, x name, m at level 100, k at level 200).

(** Python truthiness of a value ([if x:]). *)
Definition truthy (v : json) : bool :=
  match v with
  | JNull => false
  | JBool b => b
  | JInt z => negb (Z.eqb z 0)
  | JFloat f => negb (Z.eqb f 0)
  | JStr s => negb (String.eqb s "")
  | JArr l => negb (Nat.eqb (length l) 0)
  | JObj fs => negb (Nat.eqb (length fs) 0)
  end.

(** [item['id'] == id] for an integer [id]; [None] is the [KeyError]. *)
Definition id_matches (it : item) (id : Z) : res bool :=
  match it !! "id" with
  | None => Raise KeyError
  | Some (JInt z) => Ok (Z.eqb z id)
  | Some _ => Ok false
  end.

(** [item['id']] used as an integer (in [max(...) + 1]). *)
Definition int_id (it : item) : res Z :=
  match it !! "id" with
  | None => Raise KeyError
  | Some (JInt z) => Ok z
  | Some _ => Raise TypeError
  end.

(** The [BookCreate] schema: pydantic has already validated the types. *)
Record BookCreate : Type := mkBookCreate {
  bc_title : string;
  bc_author : string;
  bc_year : Z;
  bc_genre : string;
  bc_pages : Z;
  bc_available : bool;
  bc_cover_url : option string;
  bc_description : option string;
  bc_rating : option Z
}.

Definition opt_json {A} (f : A -> json) (o : option A) : json :=
  match o with Some a => f a | None => JNull end.

(** [obj_in.model_dump()]: every field of the schema, [None] as null. *)
Definition model_dump (b : BookCreate) : item :=
  list_to_map [
    ("title", JStr (bc_title b));
    ("author", JStr (bc_author b));
    ("year", JInt (bc_year b));
    ("genre", JStr (bc_genre b));
    ("pages", JInt (bc_pages b));
    ("available", JBool (bc_available b));
    ("cover_url", opt_json JStr (bc_cover_url b));
    ("description", opt_json JStr (bc_description b));
    ("rating", opt_json JFloat (bc_rating b))].

(** The [BookUpdate] schema with pydantic's "set" tracking: [None] is a
    field left unset, [Some None] a field explicitly set to null. *)
Record BookUpdate : Type := mkBookUpdate {
  bu_title : option (option string);
  bu_author : option (option string);
  bu_year : option (option Z);
  bu_genre : option (option string);
  bu_pages : option (option Z);
  bu_available : option (option bool);
  bu_cover_url : option (option string);
  bu_description : option (option string);
  bu_rating : option (option Z)
}.

Definition set_field {A} (k : string) (f : A -> json) (o : option (option A))
    : list (string * json) :=
  match o with
  | None => []
  | Some v => [(k, opt_json f v)]
  end.

(** [obj_in.model_dump(exclude_unset=True)]. *)
Definition model_dump_exclude_unset (u : BookUpdate) : item :=
  list_to_map (
    set_field "title" JStr (bu_title u) ++
    set_field "author" JStr (bu_author u) ++
    set_field "year" JInt (bu_year u) ++
    set_field "genre" JStr (bu_genre u) ++
    set_field "pages" JInt (bu_pages u) ++
    set_field "available" JBool (bu_available u) ++
    set_field "cover_url" JStr (bu_cover_url u) ++
    set_field "description" JStr (bu_description u) ++
    set_field "rating" JFloat (bu_rating u)).

(** {**a, **b}: the keys of [b] win. *)
Definition dict_merge (a b : item) : item := b ∪ a.

(** ** File and RemoteBin backends

    [FileCRUDBase] and [JsonBinCRUDBase] have the same method bodies; they
    differ only in how the whole record array is fetched ([_read_data] /
    [GET] then [.get("record", [])]) and replaced ([_write_data] / [PUT]).
    Both are modelled over the stored array as explicit state.  The result
    [self.model( **d)] carries exactly the fields of the dict [d], so the
    dict itself stands for it. *)
Module FileCRUD.

Definition M (A : Type) : Type := list item -> res (A * list item).

Definition ret {A} (a : A) : M A := fun s => Ok (a, s).

Definition bind {A B} (m : M A) (k : A -> M B) : M B := fun s =>
  match m s with
  | Ok (a, s') => k a s'
  | Raise e => Raise e
  end.

Notation "'let!' x ':=' m 'in' k" := (bind m (fun x => k))
  (at level 200, x name, m at level 100, k at level 200).

Definition lift {A} (r : res A) : M A := fun s =>
  match r with Ok a => Ok (a, s) | Raise e => Raise e end.

(** [_read_data()] / [GET] followed by [.get("record", [])]. *)
Definition read_data : M (list item) := fun s => Ok (s, s).

(** [_write_data(data)] / [PUT records]. *)
Definition write_data (d : list item) : M unit := fun _ => Ok (tt, d).

(** [next(i for i in data if i['id'] == id)] together with the
    [for idx, item in enumerate(data): if item['id'] == id:] loops. *)
Fixpoint find_index (id : Z) (data : list item) : res (option (nat * item)) :=
  match data with
  | [] => Ok None
  | it :: rest =>
      let? b := id_matches it id in
      if b then Ok (Some (0%nat, it))
      else let? r := find_index id rest in
           match r with
           | Some (i, x) => Ok (Some (S i, x))
           | None => Ok None
           end
  end.

(** [max(item['id'] for item in data)] over a non-empty array. *)
Fixpoint max_from (acc : Z) (data : list item) : res Z :=
  match data with
  | [] => Ok acc
  | it :: rest => let? z := int_id it in max_from (Z.max acc z) rest
  end.

(** [max(item['id'] for item in data) + 1 if data else 1]. *)
Definition new_id_of (data : list item) : res Z :=
  match data with
  | [] => Ok 1
  | it :: rest => let? z := int_id it in let? m := max_from z rest in Ok (m + 1)
  end.

(** Python slice bound normalisation for [l[a:b]]. *)
Definition py_norm (len i : Z) : Z :=
  if i <? 0 then Z.max 0 (i + len) else Z.min i len.

(** [l[a:b]]. *)
Definition py_slice {A} (l : list A) (a b : Z) : list A :=
  let n := Z.of_nat (length l) in
  let a' := py_norm n a in
  let b' := py_norm n b in
  firstn (Z.to_nat (b' - a')) (skipn (Z.to_nat a') l).

(** [get(id)]. *)
Definition get (id : Z) : M (option item) :=
  let! data := read_data in
  let! r := lift (find_index id data) in
  ret (match r with Some (_, it) => Some it | None => None end).

(** [get_multi(skip=skip, limit=limit)]. *)
Definition get_multi (skip limit : Z) : M (list item) :=
  let! data := read_data in
  ret (py_slice data skip (skip + limit)).

(** [create(obj_in=obj_in)]. *)
Definition create (obj_in : BookCreate) : M item :=
  let! data := read_data in
  let! new_id := lift (new_id_of data) in
  let new_item := dict_merge (model_dump obj_in) {[ "id" := JInt new_id ]} in
  let! _ := write_data (data ++ [new_item]) in
  ret new_item.

(** [update(id=id, obj_in=obj_in)]. *)
Definition update (id : Z) (obj_in : BookUpdate) : M (option item) :=
  let! data := read_data in
  let! r := lift (find_index id data) in
  match r with
  | Some (idx, it) =>
      let updated_item := dict_merge it (model_dump_exclude_unset obj_in) in
      let! _ := write_data (<[idx := updated_item]> data) in
      ret (Some updated_item)
  | None => ret None
  end.

(** [delete(id=id)]. *)
Definition delete (id : Z) : M (option item) :=
  let! data := read_data in
  let! r := lift (find_index id data) in
  match r with
  | Some (idx, it) =>
      let! _ := write_data (base.delete idx data) in
      ret (Some it)
  | None => ret None
  end.

(** A sequence of [create] / [delete] calls, as the routes issue them. *)
Inductive op : Type :=
| OCreate (b : BookCreate)
| ODelete (id : Z).

(** What each call reported: the id assigned, the id removed, or not found. *)
Inductive event : Type :=
| Created (id : Z)
| Deleted (id : Z)
| NotFound.

Definition item_id (it : item) : option json := it !! "id".

Fixpoint run (ops : list op) : M (list event) :=
  match ops with
  | [] => ret []
  | OCreate b :: rest =>
      let! it := create b in
      let! evs := run rest in
      ret (match item_id it with
           | Some (JInt z) => Created z :: evs
           | _ => evs
           end)
  | ODelete id :: rest =>
      let! r := delete id in
      let! evs := run rest in
      ret (match r with Some _ => Deleted id :: evs | None => NotFound :: evs end)
  end.

(** [n] creates in sequence. *)
Fixpoint create_many (objs : list BookCreate) : M (list item) :=
  match objs with
  | [] => ret []
  | b :: rest =>
      let! it := create b in
      let! its := create_many rest in
      ret (it :: its)
  end.

End FileCRUD.

(** The ids of a record array when every record carries an integer id. *)
Fixpoint data_ids (data : list item) : option (list Z) :=
  match data with
  | [] => Some []
  | it :: rest =>
      match it !! "id", data_ids rest with
      | Some (JInt z), Some zs => Some (z :: zs)
      | _, _ => None
      end
  end.

(** [ids_reused evs]: some id reported [Created] after it was [Deleted]. *)
Fixpoint ids_reused_from (deleted : list Z) (evs : list FileCRUD.event) : bool :=
  match evs with
  | [] => false
  | FileCRUD.Created z :: rest =>
      existsb (Z.eqb z) deleted || ids_reused_from deleted rest
  | FileCRUD.Deleted z :: rest => ids_reused_from (z :: deleted) rest
  | FileCRUD.NotFound :: rest => ids_reused_from deleted rest
  end.

Definition ids_reused (evs : list FileCRUD.event) : bool := ids_reused_from [] evs.

Definition book_a : BookCreate :=
  mkBookCreate "Dune" "Herbert" 1965 "sf" 412 true None None None.
Definition book_b : BookCreate :=
  mkBookCreate "Emma" "Austen" 1815 "novel" 474 true None None None.
Definition book_c : BookCreate :=
  mkBookCreate "Ulysses" "Joyce" 1922 "novel" 730 true None None None.

(** The record [create] stores and returns for the id [n]. *)
Definition new_record (obj : BookCreate) (n : Z) : item :=
  dict_merge (model_dump obj) {[ "id" := JInt n ]}.

(** A payload that sets only the title. *)
Definition upd_title : BookUpdate :=
  mkBookUpdate (Some (Some "Dune Messiah")) None None None None None None None None.

(** A stored array with the ids 1 and 2. *)
Definition store_ab : list item := [new_record book_a 1; new_record book_b 2].

(** ** Open Library client *)
Module OpenLibrary.

(** [OpenLibraryBookInfo()]: every field defaults to [None]; [search] and
    [_process_details] assign raw JSON values to it (pydantic does not
    validate assignments), so each field holds a [json]. *)
Record OpenLibraryBookInfo : Type := mkInfo {
  cover_url : json;
  description : json;
  rating : json;
  first_publish_year : json
}.

Definition empty_info : OpenLibraryBookInfo := mkInfo JNull JNull JNull JNull.

Definition set_cover_url (v : json) (r : OpenLibraryBookInfo) :=
  mkInfo v (description r) (rating r) (first_publish_year r).
Definition set_description (v : json) (r : OpenLibraryBookInfo) :=
  mkInfo (cover_url r) v (rating r) (first_publish_year r).
Definition set_rating (v : json) (r : OpenLibraryBookInfo) :=
  mkInfo (cover_url r) (description r) v (first_publish_year r).
Definition set_first_publish_year (v : json) (r : OpenLibraryBookInfo) :=
  mkInfo (cover_url r) (description r) (rating r) v.

(** What one HTTP exchange of [_make_request] ends in: a decoded JSON
    body, an [aiohttp.ClientError] (connection failure or an HTTP error
    status from [raise_for_status()]), or any other exception (such as a
    body that [response.json()] cannot decode). *)
Inductive response : Type :=
| RespJson (j : json)
| ClientError
| OtherError.

(** The network, as seen from the client: the outcome of a GET on a URL. *)
Definition network := string -> response.

(** The client object: whether [_session] was opened by [async with],
    [base_url] and [self.cover_url]. *)
Record client : Type := mkClient {
  session_open : bool;
  base_url : string;
  cover_base : string
}.

(** [BaseApiClient._make_request("GET", endpoint)]. *)
Definition make_request (c : client) (net : network) (endpoint : string)
    : res (option json) :=
  if negb (session_open c) then Raise RuntimeError
  else
    match net (String.append (base_url c) endpoint) with
    | RespJson j => Ok (Some j)
    | ClientError => Ok None
    | OtherError => Ok None
    end.

(** [d.get(k)] on a decoded JSON object (its keys are distinct). *)
Fixpoint obj_get (k : string) (fs : list (string * json)) : option json :=
  match fs with
  | [] => None
  | (k', v) :: rest => if String.eqb k k' then Some v else obj_get k rest
  end.

(** [k in v] for a string [k]. *)
Definition py_in (k : string) (v : json) : res bool :=
  match v with
  | JObj fs => Ok (match obj_get k fs with Some _ => true | None => false end)
  | JStr s => Ok (match String.index 0 k s with Some _ => true | None => false end)
  | JArr l => Ok (existsb (fun x => match x with JStr s => String.eqb s k | _ => false end) l)
  | _ => Raise TypeError
  end.

(** [v[k]] for a string [k]. *)
Definition py_getitem (v : json) (k : string) : res json :=
  match v with
  | JObj fs => match obj_get k fs with Some x => Ok x | None => Raise KeyError end
  | _ => Raise TypeError
  end.

(** [v[0]]. *)
Definition py_index0 (v : json) : res json :=
  match v with
  | JArr (x :: _) => Ok x
  | JArr [] => Raise KeyError
  | JStr (String ch _) => Ok (JStr (String ch EmptyString))
  | JStr EmptyString => Raise KeyError
  | JObj _ => Raise KeyError
  | _ => Raise TypeError
  end.

(** [str(v)] inside an f-string; floats and containers are rendered by a
    fixed placeholder, which no property here depends on. *)
Definition py_str (v : json) : string :=
  match v with
  | JNull => "None"
  | JBool true => "True"
  | JBool false => "False"
  | JInt z => pretty z
  | JStr s => s
  | JFloat _ => "<float>"
  | JArr _ => "<list>"
  | JObj _ => "<dict>"
  end.

(** [f"{self.cover_url}/id/{cover_id}-M.jpg"]. *)
Definition cover_link (c : client) (cover_id : json) : json :=
  JStr (String.append (cover_base c)
          (String.append "/id/" (String.append (py_str cover_id) "-M.jpg"))).

Fixpoint last_segment_from (cur s : string) : string :=
  match s with
  | EmptyString => cur
  | String ch rest =>
      if Ascii.eqb ch "/"%char then last_segment_from EmptyString rest
      else last_segment_from (String.append cur (String ch EmptyString)) rest
  end.

(** [key.split('/')[-1]]. *)
Definition split_last (key : json) : res string :=
  match key with
  | JStr s => Ok (last_segment_from EmptyString s)
  | _ => Raise AttributeError
  end.

(** [f"/works/{work_id}.json"]. *)
Definition details_endpoint (work_id : string) : string :=
  String.append "/works/" (String.append work_id ".json").

(** [get_details(work_id)]: every exception becomes [ValueError]. *)
Definition get_details (c : client) (net : network) (work_id : string)
    : res (option json) :=
  match make_request c net (details_endpoint work_id) with
  | Raise _ => Raise ValueError
  | Ok None => Ok None
  | Ok (Some data) => if truthy data then Ok (Some data) else Ok None
  end.

(** The third case of [_process_details]:
    [case {'rating': {'average': rating}} if rating is not None]. *)
Definition rating_case (fs : list (string * json)) (result : OpenLibraryBookInfo)
    : OpenLibraryBookInfo :=
  match obj_get "rating" fs with
  | Some (JObj rs) =>
      match obj_get "average" rs with
      | Some JNull | None => result
      | Some r => set_rating r result
      end
  | _ => result
  end.

(** [_process_details(details, result)]: the cases of the [match] are
    tried in order and only the first matching one runs. *)
Definition process_details (details : json) (result : OpenLibraryBookInfo)
    : OpenLibraryBookInfo :=
  match details with
  | JObj fs =>
      match obj_get "description" fs with
      | Some (JStr desc) => set_description (JStr desc) result
      | Some (JObj vs) =>
          match obj_get "value" vs with
          | Some val => set_description val result
          | None => rating_case fs result
          end
      | _ => rating_case fs result
      end
  | _ => result
  end.

(** [book_data.get('key', 'unknown')] inside the f-string of the
    [logger.debug] call, evaluated whatever the log level: only a dict has
    [.get]. *)
Definition dict_get_check (v : json) : res unit :=
  match v with JObj _ => Ok tt | _ => Raise AttributeError end.

(** The body of [search] from [book_data = data["docs"][0]] on. *)
Definition process_book (c : client) (net : network) (book_data : json)
    : res OpenLibraryBookInfo :=
  let? _ := dict_get_check book_data in
  let result := empty_info in
  let? has_year := py_in "first_publish_year" book_data in
  let? result :=
    if has_year then
      let? y := py_getitem book_data "first_publish_year" in
      Ok (set_first_publish_year y result)
    else Ok result in
  let? has_cover := py_in "cover_i" book_data in
  let? result :=
    if has_cover then
      let? ci := py_getitem book_data "cover_i" in
      Ok (set_cover_url (cover_link c ci) result)
    else Ok result in
  match book_data with
  | JObj fs =>
      match obj_get "first_publish_year" fs with
      | Some year => Ok (set_first_publish_year year result)
      | None =>
          match obj_get "cover_i" fs with
          | Some cover_id => Ok (set_cover_url (cover_link c cover_id) result)
          | None =>
              match obj_get "key" fs with
              | Some key =>
                  let? work_id := split_last key in
                  let? details := get_details c net work_id in
                  match details with
                  | Some d => if truthy d then Ok (process_details d result) else Ok result
                  | None => Ok result
                  end
              | None => Ok result
              end
          end
      end
  | _ => Ok result
  end.

(** [f"title:{title}" + (f" AND author:{author}" if author else "")]. *)
Definition query_of (title : string) (author : option string) : string :=
  String.append "title:"
    (String.append title
       (match author with
        | Some a => if String.eqb a "" then "" else String.append " AND author:" a
        | None => ""
        end)).

(** [f"/search.json?q={query}"]. *)
Definition search_endpoint (title : string) (author : option string) : string :=
  String.append "/search.json?q=" (query_of title author).

(** The [try] body of [search]; [None] is the "no result" return. *)
Definition search_body (c : client) (net : network) (title : string)
    (author : option string) : res (option OpenLibraryBookInfo) :=
  let? data := make_request c net (search_endpoint title author) in
  match data with
  | None => Ok None
  | Some d =>
      if negb (truthy d) then Ok None
      else
        match d with
        | JObj fs =>
            match obj_get "docs" fs with
            | None => Ok None
            | Some docs =>
                if negb (truthy docs) then Ok None
                else
                  let? book_data := py_index0 docs in
                  let? result := process_book c net book_data in
                  Ok (Some result)
            end
        | _ => Raise AttributeError
        end
  end.

(** [OpenLibraryClient.search(title, author)]: any exception of the body
    is re-raised as [ValueError]. *)
Definition search (c : client) (net : network) (title : string)
    (author : option string) : res (option OpenLibraryBookInfo) :=
  match search_body c net title author with
  | Raise _ => Raise ValueError
  | r => r
  end.

End OpenLibrary.

(** ** Relational backend: [BookRepository] *)
Module Relational.
Import OpenLibrary.

(** The [books] table and its id sequence.  A raised exception rolls the
    session back ([await db.rollback()] in both [except] clauses), so no
    row of the failed call is kept. *)
Record db : Type := mkDb {
  rows : list item;
  next_seq : Z
}.

(** What [await db.commit()] does with the new row: the server stores it,
    or the driver or the server rejects it and SQLAlchemy raises a
    [DBAPIError], an [SQLAlchemyError].  [seq_used] tells whether the
    rejected INSERT had already drawn its id from the sequence, which a
    rollback does not give back. *)
Inductive commit_outcome : Type :=
| Committed
| Rejected (seq_used : bool).

(** The database server and its driver, as the session sees them: the
    outcome of committing a row into a table. *)
Definition engine : Type := db -> item -> commit_outcome.

(** [db_obj = self.model( **create_data); db.add(db_obj); await db.commit();
    await db.refresh(db_obj)], with the [except] clauses' rollback and
    re-raise.  The row gets the next value of the id sequence.  Every key
    of the [create_data] built by [create] and [create_with_external_data]
    is a column of [books], so [self.model( **create_data)] does not raise. *)
Definition insert_row (eng : engine) (create_data : item) (d : db) : res item * db :=
  let row := <["id" := JInt (next_seq d)]> create_data in
  match eng d row with
  | Committed => (Ok row, mkDb (rows d ++ [row]) (next_seq d + 1))
  | Rejected seq_used =>
      (Raise SQLAlchemyError,
       mkDb (rows d) (if seq_used then next_seq d + 1 else next_seq d))
  end.

Definition is_not_none (v : json) : bool :=
  match v with JNull => false | _ => true end.

(** The merge of [BookRepository.create]. *)
Definition create_merge (create_data : item) (open_lib_info : option OpenLibraryBookInfo)
    : item :=
  match open_lib_info with
  | None => create_data
  | Some i =>
      let d1 := if truthy (cover_url i)
                then <["cover_url" := cover_url i]> create_data else create_data in
      let d2 := if truthy (description i)
                then <["description" := description i]> d1 else d1 in
      let d3 := if is_not_none (rating i)
                then <["rating" := rating i]> d2 else d2 in
      let year_absent := match d3 !! "year" with None => true | Some _ => false end in
      if truthy (first_publish_year i) && year_absent
      then <["year" := first_publish_year i]> d3 else d3
  end.

(** [BookRepository.create(db, obj_in=obj_in)]. *)
Definition create (c : client) (net : network) (eng : engine) (obj_in : BookCreate)
    (d : db) : res item * db :=
  match search c net (bc_title obj_in) (Some (bc_author obj_in)) with
  | Raise e => (Raise e, d)
  | Ok open_lib_info =>
      let create_data := create_merge (model_dump obj_in) open_lib_info in
      insert_row eng create_data d
  end.

(** The merge of [BookRepository.create_with_external_data]. *)
Definition external_merge (create_data : item) (external_info : option OpenLibraryBookInfo)
    : item :=
  match external_info with
  | None => create_data
  | Some i =>
      let d1 := if truthy (cover_url i)
                then <["cover_url" := cover_url i]> create_data else create_data in
      if truthy (description i)
      then <["description" := description i]> d1 else d1
  end.

(** [fetch_external_book_info(title, author)]: [search], re-raising. *)
Definition fetch_external_book_info (c : client) (net : network) (title : string)
    (author : option string) : res (option OpenLibraryBookInfo) :=
  search c net title author.

(** [BookRepository.create_with_external_data(db, obj_in, fetch_external)]. *)
Definition create_with_external_data (c : client) (net : network) (eng : engine)
    (obj_in : BookCreate) (fetch_external : bool) (d : db) : res item * db :=
  let create_data := model_dump obj_in in
  let merged :=
    if fetch_external then
      let? external_info :=
        fetch_external_book_info c net (bc_title obj_in) (Some (bc_author obj_in)) in
      Ok (external_merge create_data external_info)
    else Ok create_data in
  match merged with
  | Raise e => (Raise e, d)
  | Ok create_data => insert_row eng create_data d
  end.

End Relational.


(** ** Concrete clients and networks *)
Module Fixtures.
Import OpenLibrary Relational.

(** An opened client session. *)
Definition cl : client := mkClient true "https://openlibrary.org" "https://covers.openlibrary.org/b".

(** The client as [book.py] builds it: [OpenLibraryClient()] never entered
    with [async with], so [_session] stays [None]. *)
Definition cl_unopened : client :=
  mkClient false "https://openlibrary.org" "https://covers.openlibrary.org/b".

Definition search_url (t : string) (a : option string) : string :=
  String.append (base_url cl) (search_endpoint t a).
Definition details_url (w : string) : string :=
  String.append (base_url cl) (details_endpoint w).

(** The details of the work [OL1W]: a description and a rating. *)
Definition details_d_r : json :=
  JObj [("description", JStr "A desert planet.");
        ("rating", JObj [("average", JFloat 42)])].

(** A network answering the search for "Dune" with one document. *)
Definition net_with (doc : json) (details : json) : network := fun url =>
  if String.eqb url (search_url "Dune" (Some "Herbert")) then
    RespJson (JObj [("docs", JArr [doc])])
  else if String.eqb url (details_url "OL1W") then RespJson details
  else ClientError.

(** First result with a work key and a first publication year. *)
Definition net_key_year : network :=
  net_with (JObj [("key", JStr "/works/OL1W"); ("first_publish_year", JInt 1965)])
           details_d_r.

(** First result with a work key only. *)
Definition net_key_only : network :=
  net_with (JObj [("key", JStr "/works/OL1W")]) details_d_r.

(** First result with a work key; the details carry only a rating. *)
Definition net_rating_only : network :=
  net_with (JObj [("key", JStr "/works/OL1W")])
           (JObj [("rating", JObj [("average", JFloat 42)])]).

(** The search succeeds with a work key; the details request fails. *)
Definition net_details_down : network := fun url =>
  if String.eqb url (search_url "Dune" (Some "Herbert")) then
    RespJson (JObj [("docs", JArr [JObj [("key", JStr "/works/OL1W")]])])
  else ClientError.

(** Every request fails with a connection error. *)
Definition net_down : network := fun _ => ClientError.

(** The search returns zero documents. *)
Definition net_no_docs : network := fun _ => RespJson (JObj [("docs", JArr [])]).

(** The caller fields of the spec's merge example. *)
Definition caller_fields : BookCreate :=
  mkBookCreate "Dune" "Herbert" 2000 "sf" 412 true (Some "mine") None None.

(** The external record of the spec's merge example. *)
Definition ext_example : OpenLibraryBookInfo :=
  mkInfo (JStr "theirs") JNull JNull (JInt 1990).

Definition db0 : db := mkDb [] 1.

(** A 32-bit [INTEGER] column value. *)
Definition int4_ok (v : json) : bool :=
  match v with JInt z => (-2147483648 <=? z) && (z <=? 2147483647) | _ => false end.

Definition str_ok (v : json) : bool :=
  match v with JStr _ => true | _ => false end.

(** What asyncpg's [float8] encoder accepts (any object with [__float__]). *)
Definition float_ok (v : json) : bool :=
  match v with JFloat _ | JInt _ | JBool _ => true | _ => false end.

Definition bool_ok (v : json) : bool :=
  match v with JBool _ => true | _ => false end.

(** A value the encoder [p] accepts, or [None] for a nullable column. *)
Definition or_null (p : json -> bool) (v : json) : bool :=
  match v with JNull => true | _ => p v end.

(** The value a row sends for a column: absent keys are sent as [NULL],
    except [available], whose column default fills it. *)
Definition col (row : item) (k : string) : json :=
  match row !! k with Some v => v | None => JNull end.

(** asyncpg's parameter encoders accept every value of the row: [year]
    and [pages] are [INTEGER], [title], [author], [genre] and [cover_url]
    [VARCHAR], [description] [TEXT], [rating] [FLOAT], [available]
    [BOOLEAN]; [NULL] passes the encoders. *)
Definition encodable (row : item) : bool :=
  or_null str_ok (col row "title") && or_null str_ok (col row "author") &&
  or_null int4_ok (col row "year") && or_null str_ok (col row "genre") &&
  or_null int4_ok (col row "pages") && or_null bool_ok (col row "available") &&
  or_null str_ok (col row "cover_url") && or_null str_ok (col row "description") &&
  or_null float_ok (col row "rating").

(** The [NOT NULL] columns of [books] hold a value. *)
Definition not_null_ok (row : item) : bool :=
  is_not_none (col row "title") && is_not_none (col row "author") &&
  is_not_none (col row "year") && is_not_none (col row "genre") &&
  is_not_none (col row "pages") &&
  match row !! "available" with Some JNull => false | _ => true end.

(** PostgreSQL through asyncpg: an encoding error is raised by the driver
    before the INSERT is sent; a [NULL] in a [NOT NULL] column is refused
    by the server after [nextval] has run. *)
Definition pg : engine := fun _ row =>
  if negb (encodable row) then Rejected false
  else if negb (not_null_ok row) then Rejected true
  else Committed.

End Fixtures.

(** ** HTTP routers

    [FileBookRouter] ([routes/file_book.py], [routes/books.py]) and
    [JsonBinBookRouter] ([routes/jsonbin_book.py], [routes/books.py]) have
    the same handler bodies over their backend; they differ only in the
    [detail] strings of their 500 answers.  The backend methods raise only
    before their write, so a handler that turns an exception into a 500
    answer leaves the stored array as it was. *)
Module Routes.
Import OpenLibrary Relational.

(** A handler's outcome: the response model, returned with status 200,
    or the [HTTPException(status_code=..., detail=...)] it raises. *)
Inductive http (A : Type) : Type :=
| Resp (a : A)
| HTTPException (status_code : Z) (detail : string).
Arguments Resp {A} a.
Arguments HTTPException {A} status_code detail.

(** [detail="Книга не найдена"] of every 404 answer. *)
Definition not_found_detail : string := "Книга не найдена".

(** The [detail] strings of one router's 500 answers. *)
Record details : Type := mkDetails {
  d_create : string;
  d_fetch_many : string;
  d_fetch : string;
  d_update : string;
  d_delete : string
}.

Definition file_details : details :=
  mkDetails "Failed to create book in file" "Failed to fetch books from file"
    "Failed to fetch book from file" "Failed to update book in file"
    "Failed to delete book from file".

Definition jsonbin_details : details :=
  mkDetails "Failed to create book in JsonBin" "Failed to fetch books from JsonBin"
    "Failed to fetch book from JsonBin" "Failed to update book in JsonBin"
    "Failed to delete book from JsonBin".

(** [create_book(book)]. *)
Definition create_book (ds : details) (book : BookCreate) (s : list item)
    : http item * list item :=
  match FileCRUD.create book s with
  | Ok (created_book, s') => (Resp created_book, s')
  | Raise _ => (HTTPException 500 (d_create ds), s)
  end.

(** [read_books(skip, limit)]. *)
Definition read_books (ds : details) (skip limit : Z) (s : list item)
    : http (list item) * list item :=
  match FileCRUD.get_multi skip limit s with
  | Ok (books, s') => (Resp books, s')
  | Raise _ => (HTTPException 500 (d_fetch_many ds), s)
  end.

(** [read_book(book_id)]: the 404 raised inside the [try] passes the
    [except HTTPException: raise] clause unchanged. *)
Definition read_book (ds : details) (book_id : Z) (s : list item)
    : http item * list item :=
  match FileCRUD.get book_id s with
  | Ok (Some book, s') => (Resp book, s')
  | Ok (None, s') => (HTTPException 404 not_found_detail, s')
  | Raise _ => (HTTPException 500 (d_fetch ds), s)
  end.

(** [update_book(book_id, book)]. *)
Definition update_book (ds : details) (book_id : Z) (book : BookUpdate) (s : list item)
    : http item * list item :=
  match FileCRUD.update book_id book s with
  | Ok (Some db_book, s') => (Resp db_book, s')
  | Ok (None, s') => (HTTPException 404 not_found_detail, s')
  | Raise _ => (HTTPException 500 (d_update ds), s)
  end.

(** [delete_book(book_id)]. *)
Definition delete_book (ds : details) (book_id : Z) (s : list item)
    : http item * list item :=
  match FileCRUD.delete book_id s with
  | Ok (Some db_book, s') => (Resp db_book, s')
  | Ok (None, s') => (HTTPException 404 not_found_detail, s')
  | Raise _ => (HTTPException 500 (d_delete ds), s)
  end.

(** [DatabaseBookRouter.create_book(book, db)]. *)
Definition db_create_book (c : client) (net : network) (eng : engine) (book : BookCreate)
    (d : db) : http item * db :=
  match Relational.create c net eng book d with
  | (Ok created_book, d') => (Resp created_book, d')
  | (Raise _, d') => (HTTPException 500 "Failed to create book", d')
  end.

(** The client of [book_db_crud = BookRepository(model=BookModel,
    api_client=OpenLibraryClient())]: [base_url] and [cover_url] come from
    the environment, and [_session] is never opened. *)
Definition deployed_client (open_lib_base open_lib_cover_url : string) : client :=
  mkClient false open_lib_base open_lib_cover_url.

End Routes.

(** ** Predicates used in the statements *)

(** Every record carries an integer id and no two share one. *)
Definition ids_unique (data : list item) : Prop :=
  match data_ids data with Some zs => NoDup zs | None => False end.

(** Whether a string contains ['/']. *)
Fixpoint has_slash (s : string) : bool :=
  match s with
  | EmptyString => false
  | String ch rest => Ascii.eqb ch "/"%char || has_slash rest
  end.

(** Networks of the evaluations: one that also answers an unrelated URL,
    and one whose search body is a JSON list. *)
Definition net_key_only_and_more : OpenLibrary.network := fun url =>
  if String.eqb url "https://example.org/" then OpenLibrary.OtherError
  else Fixtures.net_key_only url.

Definition net_list_body : OpenLibrary.network := fun _ =>
  OpenLibrary.RespJson (JArr [JStr "Dune"]).

(** The caller fields of the merge example with [pages = 2**31]: a valid
    [BookCreate] (pydantic's [int] is unbounded) that the [INTEGER] column
    [pages] cannot hold. *)
Definition caller_pages_overflow : BookCreate :=
  mkBookCreate "Dune" "Herbert" 2000 "sf" 2147483648 true (Some "mine") None None.




(** ** File / RemoteBin backends: lemmas *)

Lemma int_id_ok (it : item) (z : Z) :
  it !! "id" = Some (JInt z) -> int_id it = Ok z.
Proof. unfold int_id. intros ->. reflexivity. Qed.

Lemma max_from_data_ids (data : list item) :
  forall acc zs, data_ids data = Some zs ->
  exists m, FileCRUD.max_from acc data = Ok m /\
            In m (acc :: zs) /\ Forall (fun z => z <= m) (acc :: zs).
Proof.
  induction data as [|it rest IH]; intros acc zs H; simpl in H.
  - injection H as <-. exists acc. simpl. split; [reflexivity|].
    split; [left; reflexivity | repeat constructor; lia].
  - destruct (it !! "id") as [[]|] eqn:E; try discriminate.
    destruct (data_ids rest) as [zs'|] eqn:E2; try discriminate.
    injection H as <-. simpl. rewrite (int_id_ok _ _ E). simpl.
    destruct (IH (Z.max acc z) zs' eq_refl) as (m & Hm & Hin & Hall).
    exists m. split; [exact Hm|]. inversion Hall as [|? ? Hmax Hrest]; subst.
    split.
    + destruct Hin as [Hin|Hin].
      * destruct (Z.max_spec acc z) as [[_ Hz]|[_ Hz]]; rewrite Hz in Hin;
          subst; simpl; auto.
      * simpl; auto.
    + constructor; [lia|]. constructor; [lia|exact Hrest].
Qed.

Lemma max_from_ok_ids (data : list item) :
  forall acc m, FileCRUD.max_from acc data = Ok m ->
  exists zs, data_ids data = Some zs /\ Forall (fun z => z <= m) (acc :: zs).
Proof.
  induction data as [|it rest IH]; intros acc m H; simpl in H.
  - injection H as <-. exists []. split; [reflexivity| repeat constructor; lia].
  - unfold int_id in H.
    destruct (it !! "id") as [[]|] eqn:E; try discriminate. simpl in H.
    destruct (IH _ _ H) as (zs & Hzs & Hall).
    exists (z :: zs). simpl. rewrite E, Hzs. split; [reflexivity|].
    inversion Hall as [|? ? Hmax Hrest]; subst.
    constructor; [lia|]. constructor; [lia|exact Hrest].
Qed.

(** [create] assigns [max(ids) + 1], or [1] on an empty array. *)
Lemma new_id_of_spec (data : list item) (zs : list Z) :
  data_ids data = Some zs ->
  exists n, FileCRUD.new_id_of data = Ok n /\
    (zs = [] -> n = 1) /\
    (zs <> [] -> In (n - 1) zs /\ Forall (fun z => z <= n - 1) zs).
Proof.
  intros H. destruct data as [|it rest]; simpl in H.
  - injection H as <-. exists 1. simpl. split; [reflexivity|].
    split; [reflexivity| intros []; reflexivity].
  - destruct (it !! "id") as [[]|] eqn:E; try discriminate.
    destruct (data_ids rest) as [zs'|] eqn:E2; try discriminate.
    injection H as <-. simpl. rewrite (int_id_ok _ _ E). simpl.
    destruct (max_from_data_ids rest z zs' E2) as (m & Hm & Hin & Hall).
    rewrite Hm. simpl. exists (m + 1). split; [reflexivity|].
    split; [discriminate|]. intros _.
    replace (m + 1 - 1) with m by lia. split; [exact Hin|exact Hall].
Qed.

Lemma new_id_of_fresh (data : list item) (n : Z) :
  FileCRUD.new_id_of data = Ok n ->
  exists zs, data_ids data = Some zs /\ Forall (fun z => z < n) zs.
Proof.
  destruct data as [|it rest]; simpl.
  - intros [= <-]. exists []. split; [reflexivity| constructor].
  - unfold int_id. destruct (it !! "id") as [[]|] eqn:E; try discriminate.
    simpl. destruct (FileCRUD.max_from z rest) as [m|] eqn:Hm; try discriminate.
    simpl. intros [= <-].
    destruct (max_from_ok_ids rest z m Hm) as (zs & Hzs & Hall).
    exists (z :: zs). cbn [data_ids]. rewrite Hzs. split; [reflexivity|].
    eapply Forall_impl; [exact Hall|]. simpl. intros; lia.
Qed.

Lemma create_unfold (obj : BookCreate) (data : list item) :
  FileCRUD.create obj data =
  match FileCRUD.new_id_of data with
  | Ok n => Ok (new_record obj n, data ++ [new_record obj n])
  | Raise e => Raise e
  end.
Proof.
  unfold FileCRUD.create, FileCRUD.bind, FileCRUD.read_data, FileCRUD.lift,
    FileCRUD.write_data, FileCRUD.ret, new_record.
  destruct (FileCRUD.new_id_of data); reflexivity.
Qed.

Lemma new_record_id (obj : BookCreate) (n : Z) :
  new_record obj n !! "id" = Some (JInt n).
Proof.
  unfold new_record, dict_merge. apply lookup_union_Some_l.
  apply lookup_singleton_eq.
Qed.

Lemma data_ids_app_one (data : list item) (it : item) (zs : list Z) (n : Z) :
  data_ids data = Some zs -> it !! "id" = Some (JInt n) ->
  data_ids (data ++ [it]) = Some (zs ++ [n]).
Proof.
  revert zs. induction data as [|x rest IH]; intros zs H Hn; simpl in *.
  - injection H as <-. rewrite Hn. reflexivity.
  - destruct (x !! "id") as [[]|]; try discriminate.
    destruct (data_ids rest) as [zs'|]; try discriminate.
    injection H as <-. rewrite (IH zs' eq_refl Hn). reflexivity.
Qed.

Lemma ids_seq_next (k : nat) (n : Z) :
  (map Z.of_nat (seq 1 k) = [] -> n = 1) ->
  (map Z.of_nat (seq 1 k) <> [] ->
     In (n - 1) (map Z.of_nat (seq 1 k)) /\
     Forall (fun z => z <= n - 1) (map Z.of_nat (seq 1 k))) ->
  n = Z.of_nat k + 1.
Proof.
  intros H0 H1. destruct k as [|k'].
  - simpl in H0. rewrite H0 by reflexivity. reflexivity.
  - destruct H1 as [Hin Hall]; [simpl; discriminate|].
    apply in_map_iff in Hin as (j & Hj & Hjin). apply in_seq in Hjin.
    rewrite List.Forall_forall in Hall.
    assert (Z.of_nat (S k') <= n - 1).
    { apply Hall. apply in_map. apply in_seq. lia. }
    lia.
Qed.

Lemma create_many_from (objs : list BookCreate) :
  forall data k, data_ids data = Some (map Z.of_nat (seq 1 k)) ->
  exists rs, FileCRUD.create_many objs data = Ok (rs, data ++ rs) /\
    map FileCRUD.item_id rs =
    map (fun j => Some (JInt (Z.of_nat j))) (seq (S k) (length objs)).
Proof.
  induction objs as [|b rest IH]; intros data k H.
  - exists []. rewrite app_nil_r. split; reflexivity.
  - destruct (new_id_of_spec data _ H) as (n & Hn & H0 & H1).
    pose proof (ids_seq_next k n H0 H1) as ->.
    assert (Hd : data_ids (data ++ [new_record b (Z.of_nat k + 1)]) =
                 Some (map Z.of_nat (seq 1 (S k)))).
    { rewrite seq_S, map_app. apply data_ids_app_one; [exact H|].
      rewrite new_record_id. f_equal. f_equal. lia. }
    destruct (IH _ (S k) Hd) as (rs & Hrs & Hids).
    exists (new_record b (Z.of_nat k + 1) :: rs).
    cbn [FileCRUD.create_many]. unfold FileCRUD.bind, FileCRUD.ret.
    rewrite create_unfold, Hn, Hrs. split.
    + rewrite <- app_assoc. reflexivity.
    + cbn [map length seq]. unfold FileCRUD.item_id at 1.
      rewrite new_record_id, Hids. do 3 f_equal. lia.
Qed.

Lemma find_index_fresh_app (data : list item) (r : item) (n : Z) :
  forall zs, data_ids data = Some zs -> Forall (fun z => z < n) zs ->
  r !! "id" = Some (JInt n) ->
  FileCRUD.find_index n (data ++ [r]) = Ok (Some (length data, r)).
Proof.
  induction data as [|x rest IH]; intros zs H Hlt Hr.
  - simpl. unfold id_matches. rewrite Hr, Z.eqb_refl. reflexivity.
  - simpl in H. destruct (x !! "id") as [[]|] eqn:E; try discriminate.
    destruct (data_ids rest) as [zs'|] eqn:E2; try discriminate.
    injection H as <-. inversion Hlt as [|? ? Hz Hrest]; subst.
    cbn [app FileCRUD.find_index]. unfold id_matches at 1. rewrite E.
    replace (z =? n) with false by (symmetry; apply Z.eqb_neq; lia).
    simpl. rewrite (IH zs' eq_refl Hrest Hr). reflexivity.
Qed.

Lemma get_unfold (id : Z) (data : list item) :
  FileCRUD.get id data =
  match FileCRUD.find_index id data with
  | Ok (Some (_, it)) => Ok (Some it, data)
  | Ok None => Ok (None, data)
  | Raise e => Raise e
  end.
Proof.
  unfold FileCRUD.get, FileCRUD.bind, FileCRUD.read_data, FileCRUD.lift, FileCRUD.ret.
  destruct (FileCRUD.find_index id data) as [[[]|]|]; reflexivity.
Qed.

Lemma delete_unfold (id : Z) (data : list item) :
  FileCRUD.delete id data =
  match FileCRUD.find_index id data with
  | Ok (Some (idx, it)) => Ok (Some it, base.delete idx data)
  | Ok None => Ok (None, data)
  | Raise e => Raise e
  end.
Proof.
  unfold FileCRUD.delete, FileCRUD.bind, FileCRUD.read_data, FileCRUD.lift,
    FileCRUD.write_data, FileCRUD.ret.
  destruct (FileCRUD.find_index id data) as [[[]|]|]; reflexivity.
Qed.

Lemma new_record_other (obj : BookCreate) (n : Z) (k : string) :
  k <> "id" -> new_record obj n !! k = model_dump obj !! k.
Proof.
  intros Hk. unfold new_record, dict_merge.
  rewrite lookup_union, lookup_singleton_ne by congruence.
  destruct (model_dump obj !! k); reflexivity.
Qed.

(** ** Evaluations on concrete inputs *)

Example create_ids_123 :
  match FileCRUD.run [FileCRUD.OCreate book_a; FileCRUD.OCreate book_b;
                      FileCRUD.OCreate book_c] [] with
  | Ok (evs, s) => evs = [FileCRUD.Created 1; FileCRUD.Created 2; FileCRUD.Created 3]
  | Raise _ => False
  end.
Proof. vm_compute. reflexivity. Qed.

Example slice_example : FileCRUD.py_slice [1;2;3;4;5] 1 3 = [2;3].
Proof. reflexivity. Qed.

(** ** Claims about the File and RemoteBin backends *)

(** C7: [create] assigns [max(existing ids) + 1], or [1] when the record
    array is empty; hence [N] creates on an empty backend assign the ids
    [1..N], in order, without gaps or repeats. *)
Theorem create_assigns_next_id :
  (forall (obj : BookCreate) (data : list item) (zs : list Z),
     data_ids data = Some zs ->
     exists n,
       FileCRUD.create obj data = Ok (new_record obj n, data ++ [new_record obj n]) /\
       new_record obj n !! "id" = Some (JInt n) /\
       (zs = [] -> n = 1) /\
       (zs <> [] -> In (n - 1) zs /\ Forall (fun z => z <= n - 1) zs)) /\
  (forall objs : list BookCreate,
     exists rs, FileCRUD.create_many objs [] = Ok (rs, rs) /\
       map FileCRUD.item_id rs =
       map (fun j => Some (JInt (Z.of_nat j))) (seq 1 (length objs))).
Proof.
  split.
  - intros obj data zs H.
    destruct (new_id_of_spec data zs H) as (n & Hn & H0 & H1).
    exists n. rewrite create_unfold, Hn.
    split; [reflexivity|]. split; [apply new_record_id|]. split; assumption.
  - intros objs. destruct (create_many_from objs [] 0 eq_refl) as (rs & Hrs & Hids).
    exists rs. split; assumption.
Qed.

Lemma create_assigns_next_id_witness :
  data_ids [] = Some [] /\
  exists n,
    FileCRUD.create book_a [] = Ok (new_record book_a n, [] ++ [new_record book_a n]) /\
    new_record book_a n !! "id" = Some (JInt n) /\
    ([] = @nil Z -> n = 1) /\
    ([] <> @nil Z -> In (n - 1) [] /\ Forall (fun z => z <= n - 1) []).
Proof.
  split; [reflexivity|].
  exact (proj1 create_assigns_next_id book_a [] [] eq_refl).
Defined.

Lemma run_create_delete_create (obj obj' : BookCreate) (data : list item) (n : Z) :
  FileCRUD.new_id_of data = Ok n ->
  exists s', FileCRUD.run [FileCRUD.OCreate obj; FileCRUD.ODelete n; FileCRUD.OCreate obj'] data
    = Ok ([FileCRUD.Created n; FileCRUD.Deleted n; FileCRUD.Created n], s').
Proof.
  intros Hn. destruct (new_id_of_fresh data n Hn) as (zs & Hzs & Hlt).
  cbn [FileCRUD.run]. cbv [FileCRUD.bind FileCRUD.ret].
  rewrite (create_unfold obj data), Hn. cbv beta iota.
  rewrite delete_unfold.
  rewrite (find_index_fresh_app data _ n zs Hzs Hlt (new_record_id obj n)).
  cbv beta iota.
  replace (base.delete (length data) (data ++ [new_record obj n])) with data
    by (rewrite delete_middle, app_nil_r; reflexivity).
  rewrite (create_unfold obj' data), Hn. cbv beta iota.
  unfold FileCRUD.item_id. rewrite !new_record_id.
  eexists. reflexivity.
Qed.

Lemma data_ids_store_ab : data_ids store_ab = Some [1; 2].
Proof. unfold store_ab. cbn [data_ids]. rewrite !new_record_id. reflexivity. Qed.

(** C2 (amended): [create] assigns an id strictly greater than every id
    stored, so ids stay unique within the record array; an id is not
    protected against reuse once deleted: after [create] assigns [n] and
    [delete n] removes that record, the next [create] assigns [n] again. *)
Theorem create_id_exceeds_stored_ids :
  forall (obj obj' : BookCreate) (data : list item) (zs : list Z),
  data_ids data = Some zs ->
  exists n,
    FileCRUD.create obj data = Ok (new_record obj n, data ++ [new_record obj n]) /\
    Forall (fun z => z < n) zs /\
    data_ids (data ++ [new_record obj n]) = Some (zs ++ [n]) /\
    (NoDup zs -> NoDup (zs ++ [n])) /\
    (exists s', FileCRUD.run [FileCRUD.OCreate obj; FileCRUD.ODelete n;
                              FileCRUD.OCreate obj'] data
       = Ok ([FileCRUD.Created n; FileCRUD.Deleted n; FileCRUD.Created n], s')).
Proof.
  intros obj obj' data zs H.
  destruct (new_id_of_spec data zs H) as (n & Hn & _ & _).
  destruct (new_id_of_fresh data n Hn) as (zs' & Hzs' & Hlt).
  rewrite H in Hzs'. injection Hzs' as <-.
  exists n. rewrite create_unfold, Hn.
  split; [reflexivity|]. split; [exact Hlt|].
  split; [apply data_ids_app_one; [exact H| apply new_record_id]|].
  split; [|apply run_create_delete_create; exact Hn].
  intros Hnd. apply NoDup_app. split; [exact Hnd|]. split; [|apply NoDup_singleton].
  intros x Hx Hxn. apply list_elem_of_singleton in Hxn. subst x.
  rewrite Forall_forall in Hlt. specialize (Hlt n Hx). lia.
Qed.

Lemma create_id_exceeds_stored_ids_witness :
  data_ids store_ab = Some [1; 2] /\
  exists n,
    FileCRUD.create book_c store_ab =
      Ok (new_record book_c n, store_ab ++ [new_record book_c n]) /\
    Forall (fun z => z < n) [1; 2] /\
    data_ids (store_ab ++ [new_record book_c n]) = Some ([1; 2] ++ [n]) /\
    (NoDup [1; 2] -> NoDup ([1; 2] ++ [n])) /\
    (exists s', FileCRUD.run [FileCRUD.OCreate book_c; FileCRUD.ODelete n;
                              FileCRUD.OCreate book_a] store_ab
       = Ok ([FileCRUD.Created n; FileCRUD.Deleted n; FileCRUD.Created n], s')).
Proof.
  split; [exact data_ids_store_ab|].
  exact (create_id_exceeds_stored_ids book_c book_a store_ab [1; 2] data_ids_store_ab).
Defined.

Example delete_then_create_events :
  match FileCRUD.run [FileCRUD.OCreate book_a; FileCRUD.OCreate book_b;
                      FileCRUD.ODelete 2; FileCRUD.OCreate book_c] [] with
  | Ok (evs, _) => evs = [FileCRUD.Created 1; FileCRUD.Created 2;
                          FileCRUD.Deleted 2; FileCRUD.Created 2]
  | Raise _ => False
  end.
Proof. vm_compute. reflexivity. Qed.

(** C2 counterexample: the claim "an id once assigned and later deleted is
    never assigned again" fails: create, create, delete 2, create assigns
    2 a second time. *)
Lemma id_reused_after_delete :
  ~ (forall (ops : list FileCRUD.op) (s : list item) (evs : list FileCRUD.event)
            (s' : list item),
       FileCRUD.run ops s = Ok (evs, s') -> ids_reused evs = false).
Proof.
  intros H.
  assert (Hb : match FileCRUD.run [FileCRUD.OCreate book_a; FileCRUD.OCreate book_b;
                                   FileCRUD.ODelete 2; FileCRUD.OCreate book_c] [] with
               | Ok (evs, _) => ids_reused evs
               | Raise _ => false
               end = true) by (vm_compute; reflexivity).
  destruct (FileCRUD.run [FileCRUD.OCreate book_a; FileCRUD.OCreate book_b;
                          FileCRUD.ODelete 2; FileCRUD.OCreate book_c] [])
    as [[evs s']|e] eqn:E.
  - rewrite ?E in Hb. cbn beta iota in Hb. rewrite (H _ _ _ _ E) in Hb. discriminate Hb.
  - rewrite ?E in Hb. cbn beta iota in Hb. discriminate Hb.
Qed.

(** C8: [create] followed by [get] on the returned id reads back the
    created record: every written field exactly, and the same id. *)
Theorem create_then_get :
  forall (obj : BookCreate) (data data' : list item) (r : item),
  FileCRUD.create obj data = Ok (r, data') ->
  exists n, r !! "id" = Some (JInt n) /\
    (forall k, k <> "id" -> r !! k = model_dump obj !! k) /\
    FileCRUD.get n data' = Ok (Some r, data').
Proof.
  intros obj data data' r H. rewrite create_unfold in H.
  destruct (FileCRUD.new_id_of data) as [n|e] eqn:Hn; [|discriminate].
  injection H as <- <-.
  destruct (new_id_of_fresh data n Hn) as (zs & Hzs & Hlt).
  exists n. split; [apply new_record_id|].
  split; [intros k Hk; apply new_record_other; exact Hk|].
  rewrite get_unfold, (find_index_fresh_app data _ n zs Hzs Hlt (new_record_id obj n)).
  reflexivity.
Qed.

Lemma create_then_get_witness :
  FileCRUD.create book_b [new_record book_a 1] =
    Ok (new_record book_b 2, [new_record book_a 1; new_record book_b 2]) /\
  exists n, new_record book_b 2 !! "id" = Some (JInt n) /\
    (forall k, k <> "id" -> new_record book_b 2 !! k = model_dump book_b !! k) /\
    FileCRUD.get n [new_record book_a 1; new_record book_b 2] =
      Ok (Some (new_record book_b 2), [new_record book_a 1; new_record book_b 2]).
Proof.
  assert (H : FileCRUD.create book_b [new_record book_a 1] =
    Ok (new_record book_b 2, [new_record book_a 1; new_record book_b 2]))
    by (vm_compute; reflexivity).
  split; [exact H|].
  exact (create_then_get book_b [new_record book_a 1] _ _ H).
Defined.

Lemma py_slice_nonneg {A} (l : list A) (skip limit : Z) :
  0 <= skip -> 0 <= limit ->
  FileCRUD.py_slice l skip (skip + limit) = take (Z.to_nat limit) (drop (Z.to_nat skip) l).
Proof.
  intros Hs Hl. unfold FileCRUD.py_slice, FileCRUD.py_norm.
  replace (skip <? 0) with false by (symmetry; apply Z.ltb_ge; lia).
  replace (skip + limit <? 0) with false by (symmetry; apply Z.ltb_ge; lia).
  destruct (Z_le_gt_dec (Z.of_nat (length l)) skip) as [Hge|Hlt].
  - rewrite (drop_ge l (Z.to_nat skip)) by lia.
    rewrite take_nil.
    replace (Z.min (skip + limit) (Z.of_nat (length l)) - Z.min skip (Z.of_nat (length l)))
      with 0 by lia.
    reflexivity.
  - replace (Z.to_nat (Z.min skip (Z.of_nat (length l)))) with (Z.to_nat skip) by lia.
    destruct (Z_le_gt_dec (skip + limit) (Z.of_nat (length l))) as [Hin|Hout].
    + f_equal. lia.
    + rewrite (take_ge (drop (Z.to_nat skip) l) (Z.to_nat limit))
        by (rewrite length_drop; lia).
      apply take_ge. rewrite length_drop. lia.
Qed.

(** C9: [get_multi(skip, limit)] with [skip >= 0] and [limit > 0] returns
    the records at positions [skip], [skip + 1], ... of the stored array,
    in storage (insertion) order, at most [limit] of them, and nothing
    when [skip] is at or beyond the number of records. *)
Theorem get_multi_slice :
  forall (data : list item) (skip limit : Z), 0 <= skip -> 0 < limit ->
  exists r, FileCRUD.get_multi skip limit data = Ok (r, data) /\
    r = take (Z.to_nat limit) (drop (Z.to_nat skip) data) /\
    length r = Nat.min (Z.to_nat limit) (length data - Z.to_nat skip) /\
    (length r <= Z.to_nat limit)%nat /\
    (forall (i : nat) (x : item), r !! i = Some x -> data !! (Z.to_nat skip + i)%nat = Some x) /\
    (Z.of_nat (length data) <= skip -> r = []).
Proof.
  intros data skip limit Hs Hl.
  exists (take (Z.to_nat limit) (drop (Z.to_nat skip) data)).
  split.
  { unfold FileCRUD.get_multi, FileCRUD.bind, FileCRUD.read_data, FileCRUD.ret.
    rewrite py_slice_nonneg by lia. reflexivity. }
  split; [reflexivity|].
  split; [rewrite length_take, length_drop; reflexivity|].
  split; [rewrite length_take; lia|].
  split.
  - intros i x Hx. apply lookup_take_Some in Hx as [Hx _].
    rewrite lookup_drop in Hx. exact Hx.
  - intros Hge. rewrite drop_ge by lia. apply take_nil.
Qed.

Lemma get_multi_slice_witness :
  0 <= 1 /\ 0 < 2 /\
  exists r, FileCRUD.get_multi 1 2 [new_record book_a 1; new_record book_b 2] =
              Ok (r, [new_record book_a 1; new_record book_b 2]) /\
    r = take (Z.to_nat 2) (drop (Z.to_nat 1) [new_record book_a 1; new_record book_b 2]) /\
    length r = Nat.min (Z.to_nat 2) (length [new_record book_a 1; new_record book_b 2] - Z.to_nat 1) /\
    (length r <= Z.to_nat 2)%nat /\
    (forall (i : nat) (x : item), r !! i = Some x ->
       [new_record book_a 1; new_record book_b 2] !! (Z.to_nat 1 + i)%nat = Some x) /\
    (Z.of_nat (length [new_record book_a 1; new_record book_b 2]) <= 1 -> r = []).
Proof.
  split; [lia|]. split; [lia|].
  apply get_multi_slice; lia.
Defined.

Lemma set_field_id_free {A} (k : string) (f : A -> json) (o : option (option A)) :
  k <> "id" -> "id" ∉ (set_field k f o).*1.
Proof. intros Hk. destruct o; simpl; set_solver. Qed.

Lemma update_payload_no_id (u : BookUpdate) :
  model_dump_exclude_unset u !! "id" = None.
Proof.
  unfold model_dump_exclude_unset. apply not_elem_of_list_to_map_1.
  rewrite !fmap_app.
  repeat (apply not_elem_of_app; split); apply set_field_id_free; discriminate.
Qed.

Lemma dict_merge_lookup (a b : item) (k : string) :
  dict_merge a b !! k = match b !! k with Some v => Some v | None => a !! k end.
Proof.
  unfold dict_merge. rewrite lookup_union.
  destruct (b !! k), (a !! k); reflexivity.
Qed.

Lemma id_matches_same (a b : item) (id : Z) :
  a !! "id" = b !! "id" -> id_matches a id = id_matches b id.
Proof. unfold id_matches. intros ->. reflexivity. Qed.

Lemma find_index_lookup (id : Z) (data : list item) :
  forall idx it, FileCRUD.find_index id data = Ok (Some (idx, it)) -> data !! idx = Some it.
Proof.
  induction data as [|x rest IH]; intros idx it H; cbn [FileCRUD.find_index] in H.
  - discriminate.
  - destruct (id_matches x id) as [[]|] eqn:Hm; simpl in H.
    + injection H as <- <-. reflexivity.
    + destruct (FileCRUD.find_index id rest) as [[[i y]|]|] eqn:E; simpl in H;
        try discriminate.
      injection H as <- <-. simpl. apply IH. reflexivity.
    + discriminate.
Qed.

Lemma find_index_insert (id : Z) (data : list item) (r : item) :
  forall idx it, FileCRUD.find_index id data = Ok (Some (idx, it)) ->
  r !! "id" = it !! "id" ->
  FileCRUD.find_index id (<[idx := r]> data) = Ok (Some (idx, r)).
Proof.
  induction data as [|x rest IH]; intros idx it H Hr; cbn [FileCRUD.find_index] in H.
  - discriminate.
  - destruct (id_matches x id) as [[]|] eqn:Hm; simpl in H.
    + injection H as <- <-. change (<[0%nat:=r]> (x :: rest)) with (r :: rest).
      cbn [FileCRUD.find_index].
      rewrite (id_matches_same r x id Hr), Hm. reflexivity.
    + destruct (FileCRUD.find_index id rest) as [[[i y]|]|] eqn:E; simpl in H;
        try discriminate.
      injection H as <- <-. change (<[S i:=r]> (x :: rest)) with (x :: <[i:=r]> rest).
      cbn [FileCRUD.find_index]. rewrite Hm. simpl. rewrite (IH i y eq_refl Hr). reflexivity.
    + discriminate.
Qed.

Lemma update_unfold (id : Z) (u : BookUpdate) (data : list item) :
  FileCRUD.update id u data =
  match FileCRUD.find_index id data with
  | Ok (Some (idx, it)) =>
      Ok (Some (dict_merge it (model_dump_exclude_unset u)),
          <[idx := dict_merge it (model_dump_exclude_unset u)]> data)
  | Ok None => Ok (None, data)
  | Raise e => Raise e
  end.
Proof.
  unfold FileCRUD.update, FileCRUD.bind, FileCRUD.read_data, FileCRUD.lift,
    FileCRUD.write_data, FileCRUD.ret.
  destruct (FileCRUD.find_index id data) as [[[]|]|]; reflexivity.
Qed.

(** C6: on an existing id, [update] replaces exactly the fields set in the
    payload, keeps every other field (the id included), writes the record
    back in place of the old one and returns it, and [get] then reads the
    updated record; on an absent id it returns not-found and writes
    nothing. *)
Theorem update_frame :
  forall (id : Z) (u : BookUpdate) (data : list item),
  (forall it : item, FileCRUD.get id data = Ok (Some it, data) ->
     exists idx,
       data !! idx = Some it /\
       FileCRUD.update id u data =
         Ok (Some (dict_merge it (model_dump_exclude_unset u)),
             <[idx := dict_merge it (model_dump_exclude_unset u)]> data) /\
       (forall k, dict_merge it (model_dump_exclude_unset u) !! k =
          match model_dump_exclude_unset u !! k with
          | Some v => Some v
          | None => it !! k
          end) /\
       dict_merge it (model_dump_exclude_unset u) !! "id" = it !! "id" /\
       FileCRUD.get id (<[idx := dict_merge it (model_dump_exclude_unset u)]> data) =
         Ok (Some (dict_merge it (model_dump_exclude_unset u)),
             <[idx := dict_merge it (model_dump_exclude_unset u)]> data)) /\
  (FileCRUD.get id data = Ok (None, data) -> FileCRUD.update id u data = Ok (None, data)).
Proof.
  intros id u data. split.
  - intros it H. rewrite get_unfold in H.
    destruct (FileCRUD.find_index id data) as [[[idx it']|]|] eqn:E; try discriminate.
    injection H as <-. exists idx.
    assert (Hid : dict_merge it' (model_dump_exclude_unset u) !! "id" = it' !! "id").
    { rewrite dict_merge_lookup, update_payload_no_id. reflexivity. }
    split; [exact (find_index_lookup id data idx it' E)|].
    split; [rewrite update_unfold, E; reflexivity|].
    split; [intros k; apply dict_merge_lookup|].
    split; [exact Hid|].
    rewrite get_unfold, (find_index_insert id data _ idx it' E Hid). reflexivity.
  - intros H. rewrite get_unfold in H. rewrite update_unfold.
    destruct (FileCRUD.find_index id data) as [[[idx it']|]|]; try discriminate.
    reflexivity.
Qed.

Lemma update_frame_witness :
  (FileCRUD.get 1 store_ab = Ok (Some (new_record book_a 1), store_ab) /\
   exists idx,
     store_ab !! idx = Some (new_record book_a 1) /\
     FileCRUD.update 1 upd_title store_ab =
       Ok (Some (dict_merge (new_record book_a 1) (model_dump_exclude_unset upd_title)),
           <[idx := dict_merge (new_record book_a 1) (model_dump_exclude_unset upd_title)]> store_ab) /\
     (forall k, dict_merge (new_record book_a 1) (model_dump_exclude_unset upd_title) !! k =
        match model_dump_exclude_unset upd_title !! k with
        | Some v => Some v
        | None => new_record book_a 1 !! k
        end) /\
     dict_merge (new_record book_a 1) (model_dump_exclude_unset upd_title) !! "id" =
       new_record book_a 1 !! "id" /\
     FileCRUD.get 1 (<[idx := dict_merge (new_record book_a 1) (model_dump_exclude_unset upd_title)]> store_ab) =
       Ok (Some (dict_merge (new_record book_a 1) (model_dump_exclude_unset upd_title)),
           <[idx := dict_merge (new_record book_a 1) (model_dump_exclude_unset upd_title)]> store_ab)) /\
  (FileCRUD.get 5 store_ab = Ok (None, store_ab) /\
   FileCRUD.update 5 upd_title store_ab = Ok (None, store_ab)).
Proof.
  assert (H1 : FileCRUD.get 1 store_ab = Ok (Some (new_record book_a 1), store_ab))
    by (vm_compute; reflexivity).
  assert (H5 : FileCRUD.get 5 store_ab = Ok (None, store_ab))
    by (vm_compute; reflexivity).
  split.
  - split; [exact H1|]. exact (proj1 (update_frame 1 upd_title store_ab) _ H1).
  - split; [exact H5|]. exact (proj2 (update_frame 5 upd_title store_ab) H5).
Defined.

(** ** Claims about the Open Library client *)

(** C3 (code evaluation at the failing inputs): the [match book_data] of
    [search] runs only its first matching case, so a first result carrying
    [first_publish_year] (or [cover_i]) never reaches the [key] case and no
    details are fetched; and the [match details] of [_process_details]
    stops at the description case, so a rating next to a description is
    dropped.  A rating alone is extracted. *)
Theorem search_match_cases_exclusive :
  OpenLibrary.search Fixtures.cl Fixtures.net_key_year "Dune" (Some "Herbert") =
    Ok (Some (OpenLibrary.mkInfo JNull JNull JNull (JInt 1965))) /\
  OpenLibrary.search Fixtures.cl Fixtures.net_key_only "Dune" (Some "Herbert") =
    Ok (Some (OpenLibrary.mkInfo JNull (JStr "A desert planet.") JNull JNull)) /\
  OpenLibrary.search Fixtures.cl Fixtures.net_rating_only "Dune" (Some "Herbert") =
    Ok (Some (OpenLibrary.mkInfo JNull JNull (JFloat 42) JNull)).
Proof. split; [|split]; vm_compute; reflexivity. Qed.

(** C4 (code evaluation at the failing input): a connection failure of
    the search request gives the same result value, [None], as a search
    with zero results, so the caller cannot tell the two apart. *)
Lemma lookup_failure_same_as_not_found :
  OpenLibrary.search Fixtures.cl Fixtures.net_down "Dune" (Some "Herbert") = Ok None /\
  OpenLibrary.search Fixtures.cl Fixtures.net_no_docs "Dune" (Some "Herbert") = Ok None.
Proof. split; vm_compute; reflexivity. Qed.

(** With an unopened session [search] raises [ValueError].  With an opened
    one, a failed search request (connection or HTTP error, or an
    undecodable body) returns [None], as a body [{"docs": []}] does; and
    when the first result is a dict with a work key but neither
    [first_publish_year] nor [cover_i], a failed details request leaves
    every field of the returned record [None]. *)
Theorem lookup_failure_reads_as_not_found :
  forall (c : OpenLibrary.client) (net : OpenLibrary.network) (title : string)
         (author : option string),
  let url := String.append (OpenLibrary.base_url c) (OpenLibrary.search_endpoint title author) in
  (OpenLibrary.session_open c = false ->
     OpenLibrary.search c net title author = Raise ValueError) /\
  (OpenLibrary.session_open c = true ->
     (net url = OpenLibrary.ClientError \/ net url = OpenLibrary.OtherError) ->
     OpenLibrary.search c net title author = Ok None) /\
  (OpenLibrary.session_open c = true ->
     net url = OpenLibrary.RespJson (JObj [("docs", JArr [])]) ->
     OpenLibrary.search c net title author = Ok None) /\
  (forall (fs : list (string * json)) (rest : list json) (key : string),
     OpenLibrary.session_open c = true ->
     net url = OpenLibrary.RespJson (JObj [("docs", JArr (JObj fs :: rest))]) ->
     OpenLibrary.obj_get "first_publish_year" fs = None ->
     OpenLibrary.obj_get "cover_i" fs = None ->
     OpenLibrary.obj_get "key" fs = Some (JStr key) ->
     let durl := String.append (OpenLibrary.base_url c)
                   (OpenLibrary.details_endpoint (OpenLibrary.last_segment_from EmptyString key)) in
     (net durl = OpenLibrary.ClientError \/ net durl = OpenLibrary.OtherError) ->
     OpenLibrary.search c net title author = Ok (Some OpenLibrary.empty_info)).
Proof.
  intros c net title author url.
  split; [|split; [|split]].
  - intros Hs. unfold OpenLibrary.search, OpenLibrary.search_body, OpenLibrary.make_request.
    rewrite Hs. reflexivity.
  - intros Hs Hnet. unfold OpenLibrary.search, OpenLibrary.search_body, OpenLibrary.make_request.
    rewrite Hs. simpl. fold url.
    destruct Hnet as [-> | ->]; reflexivity.
  - intros Hs Hnet. unfold OpenLibrary.search, OpenLibrary.search_body, OpenLibrary.make_request.
    rewrite Hs. simpl. fold url. rewrite Hnet. reflexivity.
  - intros fs rest key Hs Hnet Hy Hc Hk durl Hd.
    unfold OpenLibrary.search, OpenLibrary.search_body, OpenLibrary.make_request.
    rewrite Hs. simpl. fold url.
    rewrite Hnet. simpl.
    unfold OpenLibrary.process_book, OpenLibrary.py_in. cbv beta iota zeta.
    rewrite Hy, Hc, Hk. cbv [rbind]. cbv beta iota zeta. simpl.
    unfold OpenLibrary.get_details, OpenLibrary.make_request. rewrite Hs. simpl.
    fold durl. destruct Hd as [-> | ->]; reflexivity.
Qed.

Lemma lookup_failure_reads_as_not_found_witness :
  (OpenLibrary.session_open Fixtures.cl_unopened = false /\
   OpenLibrary.search Fixtures.cl_unopened Fixtures.net_no_docs "Dune" (Some "Herbert")
     = Raise ValueError) /\
  (OpenLibrary.session_open Fixtures.cl = true /\
   Fixtures.net_down (Fixtures.search_url "Dune" (Some "Herbert")) = OpenLibrary.ClientError /\
   OpenLibrary.search Fixtures.cl Fixtures.net_down "Dune" (Some "Herbert") = Ok None) /\
  (Fixtures.net_no_docs (Fixtures.search_url "Dune" (Some "Herbert")) =
     OpenLibrary.RespJson (JObj [("docs", JArr [])]) /\
   OpenLibrary.search Fixtures.cl Fixtures.net_no_docs "Dune" (Some "Herbert") = Ok None) /\
  (Fixtures.net_details_down (Fixtures.details_url "OL1W") = OpenLibrary.ClientError /\
   OpenLibrary.search Fixtures.cl Fixtures.net_details_down "Dune" (Some "Herbert")
     = Ok (Some OpenLibrary.empty_info)).
Proof.
  pose proof (lookup_failure_reads_as_not_found Fixtures.cl_unopened Fixtures.net_no_docs
                "Dune" (Some "Herbert")) as [HA _].
  pose proof (lookup_failure_reads_as_not_found Fixtures.cl Fixtures.net_down
                "Dune" (Some "Herbert")) as [_ [HB _]].
  pose proof (lookup_failure_reads_as_not_found Fixtures.cl Fixtures.net_no_docs
                "Dune" (Some "Herbert")) as [_ [_ [HC _]]].
  pose proof (lookup_failure_reads_as_not_found Fixtures.cl Fixtures.net_details_down
                "Dune" (Some "Herbert")) as [_ [_ [_ HD]]].
  split; [split; [reflexivity| exact (HA eq_refl)]|].
  split; [split; [reflexivity| split; [reflexivity| exact (HB eq_refl (or_introl eq_refl))]]|].
  split; [split; [reflexivity| exact (HC eq_refl eq_refl)]|].
  split; [reflexivity|].
  exact (HD [("key", JStr "/works/OL1W")] [] "/works/OL1W" eq_refl eq_refl eq_refl eq_refl
            eq_refl (or_introl eq_refl)).
Defined.

(** ** Claims about the relational backend and the enrichment merge *)

Lemma search_unopened (c : OpenLibrary.client) (net : OpenLibrary.network)
    (title : string) (author : option string) :
  OpenLibrary.session_open c = false ->
  OpenLibrary.search c net title author = Raise ValueError.
Proof.
  intros Hs. unfold OpenLibrary.search, OpenLibrary.search_body, OpenLibrary.make_request.
  rewrite Hs. reflexivity.
Qed.

Lemma search_zero_results (c : OpenLibrary.client) (net : OpenLibrary.network)
    (title : string) (author : option string) :
  OpenLibrary.session_open c = true ->
  net (String.append (OpenLibrary.base_url c) (OpenLibrary.search_endpoint title author))
    = OpenLibrary.RespJson (JObj [("docs", JArr [])]) ->
  OpenLibrary.search c net title author = Ok None.
Proof.
  intros Hs Hnet. unfold OpenLibrary.search, OpenLibrary.search_body, OpenLibrary.make_request.
  rewrite Hs. simpl. rewrite Hnet. reflexivity.
Qed.

(** C1 (code evaluation at the failing input): the spec's example holds
    ([year] stays 2000, [cover_url] becomes "theirs"), but
    [create_with_external_data] never copies the external [rating]: with a
    lookup whose record has rating 4.2, the enriched record keeps the
    caller's [None], while the sibling [BookRepository.create] applies it. *)
Theorem enriched_merge_drops_rating :
  Relational.external_merge (model_dump Fixtures.caller_fields) (Some Fixtures.ext_example)
    !! "year" = Some (JInt 2000) /\
  Relational.external_merge (model_dump Fixtures.caller_fields) (Some Fixtures.ext_example)
    !! "cover_url" = Some (JStr "theirs") /\
  OpenLibrary.search Fixtures.cl Fixtures.net_rating_only "Dune" (Some "Herbert") =
    Ok (Some (OpenLibrary.mkInfo JNull JNull (JFloat 42) JNull)) /\
  match fst (Relational.create_with_external_data Fixtures.cl Fixtures.net_rating_only
               Fixtures.pg Fixtures.caller_fields true Fixtures.db0) with
  | Ok row => row !! "rating" = Some JNull
  | Raise _ => False
  end /\
  match fst (Relational.create Fixtures.cl Fixtures.net_rating_only
               Fixtures.pg Fixtures.caller_fields Fixtures.db0) with
  | Ok row => row !! "rating" = Some (JFloat 42)
  | Raise _ => False
  end.
Proof. vm_compute. repeat split; reflexivity. Qed.

(** C5: in [create_with_external_data(fetch_external=True)], a raising
    lookup aborts the creation with the same exception and the table
    unchanged; a lookup returning [None] (as zero search results do)
    produces exactly what [fetch_external=False] produces, row and table,
    whatever the database does with the row. *)
Theorem enrichment_failure_aborts :
  forall (c : OpenLibrary.client) (net : OpenLibrary.network) (eng : Relational.engine)
         (obj : BookCreate) (d : Relational.db),
  (forall e, OpenLibrary.search c net (bc_title obj) (Some (bc_author obj)) = Raise e ->
     Relational.create_with_external_data c net eng obj true d = (Raise e, d)) /\
  (OpenLibrary.search c net (bc_title obj) (Some (bc_author obj)) = Ok None ->
     Relational.create_with_external_data c net eng obj true d =
     Relational.create_with_external_data c net eng obj false d) /\
  (OpenLibrary.session_open c = true ->
   net (String.append (OpenLibrary.base_url c)
          (OpenLibrary.search_endpoint (bc_title obj) (Some (bc_author obj))))
     = OpenLibrary.RespJson (JObj [("docs", JArr [])]) ->
     Relational.create_with_external_data c net eng obj true d =
     Relational.create_with_external_data c net eng obj false d).
Proof.
  intros c net eng obj d.
  unfold Relational.create_with_external_data, Relational.fetch_external_book_info.
  split; [|split].
  - intros e H. rewrite H. reflexivity.
  - intros H. rewrite H. reflexivity.
  - intros Hs Hnet. rewrite (search_zero_results c net _ _ Hs Hnet). reflexivity.
Qed.

Lemma enrichment_failure_aborts_witness :
  OpenLibrary.search Fixtures.cl_unopened Fixtures.net_no_docs "Dune" (Some "Herbert")
    = Raise ValueError /\
  Relational.create_with_external_data Fixtures.cl_unopened Fixtures.net_no_docs Fixtures.pg
    Fixtures.caller_fields true Fixtures.db0 = (Raise ValueError, Fixtures.db0) /\
  OpenLibrary.search Fixtures.cl Fixtures.net_no_docs "Dune" (Some "Herbert") = Ok None /\
  Relational.create_with_external_data Fixtures.cl Fixtures.net_no_docs Fixtures.pg
    Fixtures.caller_fields true Fixtures.db0 =
  Relational.create_with_external_data Fixtures.cl Fixtures.net_no_docs Fixtures.pg
    Fixtures.caller_fields false Fixtures.db0 /\
  Fixtures.net_no_docs (Fixtures.search_url "Dune" (Some "Herbert")) =
    OpenLibrary.RespJson (JObj [("docs", JArr [])]).
Proof.
  assert (H1 : OpenLibrary.search Fixtures.cl_unopened Fixtures.net_no_docs "Dune"
                 (Some "Herbert") = Raise ValueError) by (vm_compute; reflexivity).
  assert (H2 : OpenLibrary.search Fixtures.cl Fixtures.net_no_docs "Dune"
                 (Some "Herbert") = Ok None) by (vm_compute; reflexivity).
  split; [exact H1|]. split.
  { exact (proj1 (enrichment_failure_aborts Fixtures.cl_unopened Fixtures.net_no_docs
                    Fixtures.pg Fixtures.caller_fields Fixtures.db0) ValueError H1). }
  split; [exact H2|]. split.
  { exact (proj1 (proj2 (enrichment_failure_aborts Fixtures.cl Fixtures.net_no_docs
                           Fixtures.pg Fixtures.caller_fields Fixtures.db0)) H2). }
  reflexivity.
Defined.

(** C10: [BookRepository.create] always calls [search] before inserting:
    a raising lookup is re-raised with the table unchanged, otherwise the
    caller's fields merged with the lookup's record go to the insert, which
    commits them or, when the database rejects the row, re-raises after the
    rollback.  Whenever [create] raises, no row is added.  With the client
    as the module builds it (session never opened) every plain create
    fails; and the inserted row depends on what the external API answers. *)
Theorem plain_create_calls_lookup :
  (forall (c : OpenLibrary.client) (net : OpenLibrary.network) (eng : Relational.engine)
          (obj : BookCreate) (d : Relational.db),
   (forall e, OpenLibrary.search c net (bc_title obj) (Some (bc_author obj)) = Raise e ->
      Relational.create c net eng obj d = (Raise e, d)) /\
   (forall info, OpenLibrary.search c net (bc_title obj) (Some (bc_author obj)) = Ok info ->
      Relational.create c net eng obj d =
        Relational.insert_row eng (Relational.create_merge (model_dump obj) info) d) /\
   (OpenLibrary.session_open c = false ->
      Relational.create c net eng obj d = (Raise ValueError, d)) /\
   (forall e, fst (Relational.create c net eng obj d) = Raise e ->
      Relational.rows (snd (Relational.create c net eng obj d)) = Relational.rows d)) /\
  fst (Relational.create Fixtures.cl Fixtures.net_rating_only Fixtures.pg
         Fixtures.caller_fields Fixtures.db0)
  <> fst (Relational.create Fixtures.cl Fixtures.net_no_docs Fixtures.pg
            Fixtures.caller_fields Fixtures.db0).
Proof.
  split.
  - intros c net eng obj d. unfold Relational.create. split; [|split; [|split]].
    + intros e H. rewrite H. reflexivity.
    + intros info H. rewrite H. reflexivity.
    + intros Hs. rewrite (search_unopened c net _ _ Hs). reflexivity.
    + intros e. destruct (OpenLibrary.search c net _ _) as [info|e'];
        [|intros _; reflexivity].
      unfold Relational.insert_row. destruct (eng _ _); [discriminate|].
      intros _; reflexivity.
  - intros H.
    apply (f_equal (fun r => match r with Ok row => row !! "rating" | Raise _ => None end)) in H.
    vm_compute in H. discriminate.
Qed.

Lemma plain_create_calls_lookup_witness :
  OpenLibrary.search Fixtures.cl_unopened Fixtures.net_rating_only "Dune" (Some "Herbert")
    = Raise ValueError /\
  Relational.create Fixtures.cl_unopened Fixtures.net_rating_only Fixtures.pg
    Fixtures.caller_fields Fixtures.db0 = (Raise ValueError, Fixtures.db0) /\
  OpenLibrary.search Fixtures.cl Fixtures.net_no_docs "Dune" (Some "Herbert") = Ok None /\
  Relational.create Fixtures.cl Fixtures.net_no_docs Fixtures.pg Fixtures.caller_fields
    Fixtures.db0 =
    Relational.insert_row Fixtures.pg
      (Relational.create_merge (model_dump Fixtures.caller_fields) None) Fixtures.db0 /\
  OpenLibrary.session_open Fixtures.cl_unopened = false /\
  Relational.rows (snd (Relational.create Fixtures.cl Fixtures.net_no_docs Fixtures.pg
                          caller_pages_overflow Fixtures.db0)) = Relational.rows Fixtures.db0.
Proof.
  assert (H1 : OpenLibrary.search Fixtures.cl_unopened Fixtures.net_rating_only "Dune"
                 (Some "Herbert") = Raise ValueError) by (vm_compute; reflexivity).
  assert (H2 : OpenLibrary.search Fixtures.cl Fixtures.net_no_docs "Dune"
                 (Some "Herbert") = Ok None) by (vm_compute; reflexivity).
  assert (H3 : fst (Relational.create Fixtures.cl Fixtures.net_no_docs Fixtures.pg
                      caller_pages_overflow Fixtures.db0) = Raise SQLAlchemyError)
    by (vm_compute; reflexivity).
  split; [exact H1|]. split.
  { exact (proj1 (proj1 plain_create_calls_lookup Fixtures.cl_unopened Fixtures.net_rating_only
                    Fixtures.pg Fixtures.caller_fields Fixtures.db0) ValueError H1). }
  split; [exact H2|]. split.
  { exact (proj1 (proj2 (proj1 plain_create_calls_lookup Fixtures.cl Fixtures.net_no_docs
                           Fixtures.pg Fixtures.caller_fields Fixtures.db0)) None H2). }
  split; [reflexivity|].
  exact (proj2 (proj2 (proj2 (proj1 plain_create_calls_lookup Fixtures.cl Fixtures.net_no_docs
           Fixtures.pg caller_pages_overflow Fixtures.db0))) SQLAlchemyError H3).
Defined.

(** ** Further properties of the code *)

Lemma find_index_store_ab_1 :
  FileCRUD.find_index 1 store_ab = Ok (Some (0%nat, new_record book_a 1)).
Proof.
  unfold store_ab. cbn [FileCRUD.find_index]. unfold id_matches.
  rewrite !new_record_id. reflexivity.
Qed.

Lemma find_index_store_ab_2 :
  FileCRUD.find_index 2 store_ab = Ok (Some (1%nat, new_record book_b 2)).
Proof.
  unfold store_ab. cbn [FileCRUD.find_index]. unfold id_matches.
  rewrite !new_record_id. reflexivity.
Qed.

(** [get_multi] pages compose: with non-negative [skip], [l1], [l2], the page of [l1] records at [skip] followed by the page of [l2] records at [skip + l1] is the page of [l1 + l2] records at [skip]; reading never changes the store. *)
Theorem get_multi_pages_concat :
  forall (data : list item) (skip l1 l2 : Z), 0 <= skip -> 0 <= l1 -> 0 <= l2 ->
  exists p1 p2,
    FileCRUD.get_multi skip l1 data = Ok (p1, data) /\
    FileCRUD.get_multi (skip + l1) l2 data = Ok (p2, data) /\
    FileCRUD.get_multi skip (l1 + l2) data = Ok (p1 ++ p2, data).
Proof.
  intros data skip l1 l2 Hs H1 H2.
  unfold FileCRUD.get_multi, FileCRUD.bind, FileCRUD.read_data, FileCRUD.ret.
  do 2 eexists. split; [reflexivity|]. split; [reflexivity|].
  rewrite !py_slice_nonneg by lia.
  rewrite Z2Nat.inj_add by lia. rewrite Z2Nat.inj_add by lia.
  rewrite <- (drop_drop data (Z.to_nat l1) (Z.to_nat skip)), take_take_drop.
  reflexivity.
Qed.

Lemma get_multi_pages_concat_witness :
  exists p1 p2,
    FileCRUD.get_multi 0 1 store_ab = Ok (p1, store_ab) /\
    FileCRUD.get_multi (0 + 1) 1 store_ab = Ok (p2, store_ab) /\
    FileCRUD.get_multi 0 (1 + 1) store_ab = Ok (p1 ++ p2, store_ab).
Proof. apply get_multi_pages_concat; lia. Defined.

(** [skip] and [limit] reach [data[skip:skip + limit]] unchecked: [read_books(skip=0, limit=-k)] with [0 < k <= len(data)] answers every record except the last [k], not an error or an empty page. *)
Theorem read_books_negative_limit :
  forall (ds : Routes.details) (data : list item) (k : Z),
  0 < k -> k <= Z.of_nat (length data) ->
  FileCRUD.get_multi 0 (- k) data = Ok (take (length data - Z.to_nat k) data, data) /\
  Routes.read_books ds 0 (- k) data =
    (Routes.Resp (take (length data - Z.to_nat k) data), data).
Proof.
  intros ds data k Hk Hle.
  assert (Hg : FileCRUD.get_multi 0 (- k) data =
               Ok (take (length data - Z.to_nat k) data, data)).
  { unfold FileCRUD.get_multi, FileCRUD.bind, FileCRUD.read_data, FileCRUD.ret,
      FileCRUD.py_slice, FileCRUD.py_norm.
    replace (0 <? 0) with false by reflexivity.
    replace (0 + - k <? 0) with true by (symmetry; apply Z.ltb_lt; lia).
    replace (Z.min 0 (Z.of_nat (length data))) with 0 by lia.
    replace (Z.to_nat (Z.max 0 (0 + - k + Z.of_nat (length data)) - 0))
      with (length data - Z.to_nat k)%nat by lia.
    reflexivity. }
  split; [exact Hg|]. unfold Routes.read_books. rewrite Hg. reflexivity.
Qed.

Lemma read_books_negative_limit_witness :
  0 < 1 /\ 1 <= Z.of_nat (length store_ab) /\
  FileCRUD.get_multi 0 (- 1) store_ab =
    Ok (take (length store_ab - Z.to_nat 1) store_ab, store_ab) /\
  Routes.read_books Routes.file_details 0 (- 1) store_ab =
    (Routes.Resp (take (length store_ab - Z.to_nat 1) store_ab), store_ab).
Proof.
  split; [lia|]. split; [simpl; lia|].
  apply (read_books_negative_limit Routes.file_details store_ab 1); simpl; lia.
Defined.

(** On a store whose records all carry integer ids, [create] followed by [delete] of the id it assigned returns the created record and restores the stored array exactly. *)
Theorem create_then_delete_restores :
  forall (obj : BookCreate) (data : list item) (zs : list Z),
  data_ids data = Some zs ->
  exists n,
    FileCRUD.create obj data = Ok (new_record obj n, data ++ [new_record obj n]) /\
    FileCRUD.delete n (data ++ [new_record obj n]) = Ok (Some (new_record obj n), data).
Proof.
  intros obj data zs H.
  destruct (new_id_of_spec data zs H) as (n & Hn & _ & _).
  exists n. rewrite create_unfold, Hn. split; [reflexivity|].
  destruct (new_id_of_fresh data n Hn) as (zs' & Hzs' & Hlt).
  rewrite delete_unfold.
  rewrite (find_index_fresh_app data (new_record obj n) n zs' Hzs' Hlt (new_record_id obj n)).
  rewrite delete_middle, app_nil_r. reflexivity.
Qed.

Lemma create_then_delete_restores_witness :
  data_ids store_ab = Some [1; 2] /\
  exists n,
    FileCRUD.create book_c store_ab = Ok (new_record book_c n, store_ab ++ [new_record book_c n]) /\
    FileCRUD.delete n (store_ab ++ [new_record book_c n]) =
      Ok (Some (new_record book_c n), store_ab).
Proof.
  split; [exact data_ids_store_ab|].
  exact (create_then_delete_restores book_c store_ab [1; 2] data_ids_store_ab).
Defined.

Lemma find_index_absent (id : Z) (data : list item) :
  forall zs, data_ids data = Some zs -> id ∉ zs -> FileCRUD.find_index id data = Ok None.
Proof.
  induction data as [|x rest IH]; intros zs H Hn; [reflexivity|].
  simpl in H. destruct (x !! "id") as [[]|] eqn:E; try discriminate.
  destruct (data_ids rest) as [zs'|] eqn:E2; try discriminate.
  injection H as <-. cbn [FileCRUD.find_index]. unfold id_matches at 1. rewrite E.
  replace (z =? id) with false by (symmetry; apply Z.eqb_neq; intros ->; apply Hn; set_solver).
  simpl. rewrite (IH zs' eq_refl) by set_solver. reflexivity.
Qed.

Lemma find_index_delete_unique (id : Z) (data : list item) :
  forall zs idx it, data_ids data = Some zs -> NoDup zs ->
  FileCRUD.find_index id data = Ok (Some (idx, it)) ->
  FileCRUD.find_index id (base.delete idx data) = Ok None.
Proof.
  induction data as [|x rest IH]; intros zs idx it H Hnd Hf; [discriminate|].
  simpl in H. destruct (x !! "id") as [[]|] eqn:E; try discriminate.
  destruct (data_ids rest) as [zs'|] eqn:E2; try discriminate.
  injection H as <-. apply NoDup_cons in Hnd as [Hz Hnd'].
  cbn [FileCRUD.find_index] in Hf. unfold id_matches in Hf. rewrite E in Hf.
  destruct (z =? id) eqn:Ez; simpl in Hf.
  - injection Hf as <- <-. apply Z.eqb_eq in Ez; subst z.
    change (base.delete 0 (x :: rest)) with rest.
    exact (find_index_absent id rest zs' E2 Hz).
  - destruct (FileCRUD.find_index id rest) as [[[i y]|]|] eqn:Ef; simpl in Hf;
      try discriminate.
    injection Hf as <- <-.
    change (base.delete (S i) (x :: rest)) with (x :: base.delete i rest).
    cbn [FileCRUD.find_index]. unfold id_matches at 1. rewrite E, Ez. simpl.
    rewrite (IH zs' i y eq_refl Hnd' eq_refl). reflexivity.
Qed.

Lemma delete_unique_core (id : Z) (data : list item) (it : item) :
  ids_unique data -> FileCRUD.get id data = Ok (Some it, data) ->
  exists idx, data !! idx = Some it /\
    FileCRUD.delete id data = Ok (Some it, base.delete idx data) /\
    FileCRUD.find_index id (base.delete idx data) = Ok None.
Proof.
  unfold ids_unique. intros Hu Hg. rewrite get_unfold in Hg.
  destruct (data_ids data) as [zs|] eqn:Hz; [|contradiction].
  destruct (FileCRUD.find_index id data) as [[[idx y]|]|] eqn:Ef; try discriminate.
  injection Hg as Hy. subst y. exists idx.
  split; [exact (find_index_lookup _ _ _ _ Ef)|].
  rewrite delete_unfold, Ef. split; [reflexivity|].
  exact (find_index_delete_unique id data zs idx it Hz Hu Ef).
Qed.

(** When the ids are distinct integers and [get(id)] finds a record, [delete(id)] returns it and stores the array without that one position (one record fewer, the others in order); [get(id)] then finds nothing. *)
Theorem delete_removes_record :
  forall (id : Z) (data : list item) (it : item),
  ids_unique data -> FileCRUD.get id data = Ok (Some it, data) ->
  exists idx, data !! idx = Some it /\
    FileCRUD.delete id data = Ok (Some it, take idx data ++ drop (S idx) data) /\
    length (take idx data ++ drop (S idx) data) = (length data - 1)%nat /\
    FileCRUD.get id (take idx data ++ drop (S idx) data) =
      Ok (None, take idx data ++ drop (S idx) data).
Proof.
  intros id data it Hu Hg.
  destruct (delete_unique_core id data it Hu Hg) as (idx & Hl & Hd & Hf).
  exists idx. rewrite <- delete_take_drop. split; [exact Hl|]. split; [exact Hd|].
  split; [apply length_delete; rewrite Hl; eexists; reflexivity|].
  rewrite get_unfold, Hf. reflexivity.
Qed.

Lemma ids_unique_store_ab : ids_unique store_ab.
Proof.
  unfold ids_unique. rewrite data_ids_store_ab.
  repeat constructor; set_solver.
Qed.

Lemma delete_removes_record_witness :
  (ids_unique store_ab /\
   FileCRUD.get 1 store_ab = Ok (Some (new_record book_a 1), store_ab)) /\
  exists idx, store_ab !! idx = Some (new_record book_a 1) /\
    FileCRUD.delete 1 store_ab =
      Ok (Some (new_record book_a 1), take idx store_ab ++ drop (S idx) store_ab) /\
    length (take idx store_ab ++ drop (S idx) store_ab) = (length store_ab - 1)%nat /\
    FileCRUD.get 1 (take idx store_ab ++ drop (S idx) store_ab) =
      Ok (None, take idx store_ab ++ drop (S idx) store_ab).
Proof.
  assert (Hg : FileCRUD.get 1 store_ab = Ok (Some (new_record book_a 1), store_ab))
    by (rewrite get_unfold, find_index_store_ab_1; reflexivity).
  split; [split; [exact ids_unique_store_ab | exact Hg]|].
  exact (delete_removes_record 1 store_ab (new_record book_a 1) ids_unique_store_ab Hg).
Defined.

(** At the router, deleting an existing book (distinct ids) answers the book; deleting or reading the same id again answers 404 with the not-found detail. *)
Theorem delete_book_twice_not_found :
  forall (ds : Routes.details) (id : Z) (data : list item) (it : item),
  ids_unique data -> FileCRUD.get id data = Ok (Some it, data) ->
  exists s1,
    Routes.delete_book ds id data = (Routes.Resp it, s1) /\
    Routes.delete_book ds id s1 = (Routes.HTTPException 404 Routes.not_found_detail, s1) /\
    Routes.read_book ds id s1 = (Routes.HTTPException 404 Routes.not_found_detail, s1).
Proof.
  intros ds id data it Hu Hg.
  destruct (delete_unique_core id data it Hu Hg) as (idx & _ & Hd & Hf).
  exists (base.delete idx data). unfold Routes.delete_book, Routes.read_book.
  rewrite Hd, (delete_unfold id (base.delete idx data)), (get_unfold id (base.delete idx data)), Hf.
  split; [reflexivity|]. split; reflexivity.
Qed.

Lemma delete_book_twice_not_found_witness :
  (ids_unique store_ab /\
   FileCRUD.get 2 store_ab = Ok (Some (new_record book_b 2), store_ab)) /\
  exists s1,
    Routes.delete_book Routes.file_details 2 store_ab = (Routes.Resp (new_record book_b 2), s1) /\
    Routes.delete_book Routes.file_details 2 s1 =
      (Routes.HTTPException 404 Routes.not_found_detail, s1) /\
    Routes.read_book Routes.file_details 2 s1 =
      (Routes.HTTPException 404 Routes.not_found_detail, s1).
Proof.
  assert (Hg : FileCRUD.get 2 store_ab = Ok (Some (new_record book_b 2), store_ab))
    by (rewrite get_unfold, find_index_store_ab_2; reflexivity).
  split; [split; [exact ids_unique_store_ab | exact Hg]|].
  exact (delete_book_twice_not_found Routes.file_details 2 store_ab (new_record book_b 2)
           ids_unique_store_ab Hg).
Defined.

Lemma data_ids_insert (data : list item) :
  forall idx it r, data !! idx = Some it -> r !! "id" = it !! "id" ->
  data_ids (<[idx := r]> data) = data_ids data.
Proof.
  induction data as [|x rest IH]; intros idx it r Hl Hr; [discriminate|].
  destruct idx as [|i].
  - injection Hl as ->. change (<[0%nat:=r]> (it :: rest)) with (r :: rest).
    simpl. rewrite Hr. reflexivity.
  - change (<[S i:=r]> (x :: rest)) with (x :: <[i:=r]> rest).
    simpl in Hl. simpl. rewrite (IH i it r Hl Hr). reflexivity.
Qed.

(** A successful [update], whether it finds the id or not, never changes the ids of the stored records nor their number. *)
Theorem update_keeps_ids :
  forall (id : Z) (u : BookUpdate) (data data' : list item) (r : option item),
  FileCRUD.update id u data = Ok (r, data') ->
  data_ids data' = data_ids data /\ length data' = length data.
Proof.
  intros id u data data' r H. rewrite update_unfold in H.
  destruct (FileCRUD.find_index id data) as [[[idx it]|]|] eqn:Ef; try discriminate.
  - injection H as _ <-. split; [|apply length_insert].
    apply (data_ids_insert data idx it); [exact (find_index_lookup _ _ _ _ Ef)|].
    rewrite dict_merge_lookup, update_payload_no_id. reflexivity.
  - injection H as _ <-. split; reflexivity.
Qed.

Lemma update_keeps_ids_witness :
  FileCRUD.update 1 upd_title store_ab =
    Ok (Some (dict_merge (new_record book_a 1) (model_dump_exclude_unset upd_title)),
        <[0%nat := dict_merge (new_record book_a 1) (model_dump_exclude_unset upd_title)]> store_ab) /\
  data_ids (<[0%nat := dict_merge (new_record book_a 1) (model_dump_exclude_unset upd_title)]> store_ab)
    = data_ids store_ab /\
  length (<[0%nat := dict_merge (new_record book_a 1) (model_dump_exclude_unset upd_title)]> store_ab)
    = length store_ab.
Proof.
  assert (H : FileCRUD.update 1 upd_title store_ab =
    Ok (Some (dict_merge (new_record book_a 1) (model_dump_exclude_unset upd_title)),
        <[0%nat := dict_merge (new_record book_a 1) (model_dump_exclude_unset upd_title)]> store_ab))
    by (rewrite update_unfold, find_index_store_ab_1; reflexivity).
  split; [exact H|]. exact (update_keeps_ids 1 upd_title store_ab _ _ H).
Defined.

Lemma data_ids_delete (data : list item) :
  forall zs idx, data_ids data = Some zs ->
  data_ids (base.delete idx data) = Some (base.delete idx zs).
Proof.
  induction data as [|x rest IH]; intros zs idx H.
  - injection H as <-. destruct idx; reflexivity.
  - simpl in H. destruct (x !! "id") as [[]|] eqn:E; try discriminate.
    destruct (data_ids rest) as [zs'|] eqn:E2; try discriminate.
    injection H as <-. destruct idx as [|i].
    + exact E2.
    + change (base.delete (S i) (x :: rest)) with (x :: base.delete i rest).
      change (base.delete (S i) (z :: zs')) with (z :: base.delete i zs').
      simpl. rewrite E, (IH zs' i eq_refl). reflexivity.
Qed.

Lemma create_keeps_unique (obj : BookCreate) (data data' : list item) (it : item) :
  ids_unique data -> FileCRUD.create obj data = Ok (it, data') -> ids_unique data'.
Proof.
  unfold ids_unique. intros Hu H. rewrite create_unfold in H.
  destruct (FileCRUD.new_id_of data) as [n|e] eqn:Hn; [|discriminate].
  injection H as _ <-.
  destruct (new_id_of_fresh data n Hn) as (zs & Hz & Hlt). rewrite Hz in Hu.
  rewrite (data_ids_app_one data _ zs n Hz (new_record_id obj n)).
  apply NoDup_app. split; [exact Hu|]. split; [|apply NoDup_singleton].
  intros x Hx Hxn. apply list_elem_of_singleton in Hxn. subst x.
  rewrite List.Forall_forall in Hlt. apply list_elem_of_In in Hx.
  specialize (Hlt n Hx). lia.
Qed.

Lemma delete_keeps_unique (id : Z) (data data' : list item) (r : option item) :
  ids_unique data -> FileCRUD.delete id data = Ok (r, data') -> ids_unique data'.
Proof.
  unfold ids_unique. intros Hu H. rewrite delete_unfold in H.
  destruct (data_ids data) as [zs|] eqn:Hz; [|contradiction].
  destruct (FileCRUD.find_index id data) as [[[idx it]|]|] eqn:Ef; try discriminate.
  - injection H as _ <-. rewrite (data_ids_delete data zs idx Hz).
    apply (sublist_NoDup _ zs Hu). apply sublist_delete.
  - injection H as _ <-. rewrite Hz. exact Hu.
Qed.

(** Any sequence of [create] and [delete] calls that succeeds keeps the ids of the stored records distinct integers, if they were so before. *)
Theorem run_keeps_ids_unique :
  forall (ops : list FileCRUD.op) (data data' : list item) (evs : list FileCRUD.event),
  ids_unique data -> FileCRUD.run ops data = Ok (evs, data') -> ids_unique data'.
Proof.
  induction ops as [|o rest IH]; intros data data' evs Hu H.
  - cbv [FileCRUD.run FileCRUD.ret] in H. injection H as _ <-. exact Hu.
  - destruct o as [b|id]; cbn [FileCRUD.run] in H; cbv [FileCRUD.bind FileCRUD.ret] in H.
    + destruct (FileCRUD.create b data) as [[it s1]|e] eqn:Ec; [|discriminate].
      destruct (FileCRUD.run rest s1) as [[evs1 s2]|e] eqn:Er; [|discriminate].
      injection H as _ <-. exact (IH s1 s2 evs1 (create_keeps_unique b data s1 it Hu Ec) Er).
    + destruct (FileCRUD.delete id data) as [[r s1]|e] eqn:Ed; [|discriminate].
      destruct (FileCRUD.run rest s1) as [[evs1 s2]|e] eqn:Er; [|discriminate].
      injection H as _ <-. exact (IH s1 s2 evs1 (delete_keeps_unique id data s1 r Hu Ed) Er).
Qed.

Lemma run_keeps_ids_unique_witness :
  ids_unique store_ab /\
  exists evs data',
    FileCRUD.run [FileCRUD.ODelete 2; FileCRUD.OCreate book_c; FileCRUD.ODelete 7] store_ab
      = Ok (evs, data') /\ ids_unique data'.
Proof.
  split; [exact ids_unique_store_ab|].
  destruct (FileCRUD.run [FileCRUD.ODelete 2; FileCRUD.OCreate book_c; FileCRUD.ODelete 7]
              store_ab) as [[evs data']|e] eqn:E.
  - exists evs, data'. split; [reflexivity|].
    exact (run_keeps_ids_unique _ store_ab data' evs ids_unique_store_ab E).
  - exfalso.
    apply (f_equal (fun r => match r with Ok _ => true | Raise _ => false end)) in E.
    vm_compute in E. discriminate E.
Defined.






Lemma max_from_missing_id (data : list item) (it : item) :
  In it data -> it !! "id" = None ->
  forall acc, exists e, FileCRUD.max_from acc data = Raise e.
Proof.
  induction data as [|x rest IH]; intros Hin Hid acc; [destruct Hin|].
  cbn [FileCRUD.max_from]. destruct (int_id x) as [z|e] eqn:Ex; simpl.
  - destruct Hin as [<-|Hin].
    + unfold int_id in Ex. rewrite Hid in Ex. discriminate.
    + apply IH; assumption.
  - exists e; reflexivity.
Qed.

Lemma new_id_of_missing_id (data : list item) (it : item) :
  In it data -> it !! "id" = None -> exists e, FileCRUD.new_id_of data = Raise e.
Proof.
  intros Hin Hid. destruct data as [|x rest]; [destruct Hin|].
  cbn [FileCRUD.new_id_of]. destruct (int_id x) as [z|e] eqn:Ex; simpl.
  - destruct Hin as [<-|Hin].
    + unfold int_id in Ex. rewrite Hid in Ex. discriminate.
    + destruct (max_from_missing_id rest it Hin Hid z) as [e He].
      rewrite He. exists e. reflexivity.
  - exists e; reflexivity.
Qed.

(** If any stored record lacks the key [id], [create_book] answers 500 with the router's create detail and the store is left unchanged. *)
Theorem create_book_record_without_id :
  forall (ds : Routes.details) (book : BookCreate) (data : list item) (it : item),
  In it data -> it !! "id" = None ->
  Routes.create_book ds book data = (Routes.HTTPException 500 (Routes.d_create ds), data).
Proof.
  intros ds book data it Hin Hid. unfold Routes.create_book. rewrite create_unfold.
  destruct (new_id_of_missing_id data it Hin Hid) as [e He]. rewrite He. reflexivity.
Qed.

Lemma create_book_record_without_id_witness :
  (In (model_dump book_a) (store_ab ++ [model_dump book_a]) /\ model_dump book_a !! "id" = None) /\
  Routes.create_book Routes.jsonbin_details book_c (store_ab ++ [model_dump book_a]) =
    (Routes.HTTPException 500 (Routes.d_create Routes.jsonbin_details), store_ab ++ [model_dump book_a]).
Proof.
  assert (Hin : In (model_dump book_a) (store_ab ++ [model_dump book_a]))
    by (apply in_or_app; right; left; reflexivity).
  assert (Hid : model_dump book_a !! "id" = None) by (vm_compute; reflexivity).
  split; [split; assumption|].
  exact (create_book_record_without_id Routes.jsonbin_details book_c _ _ Hin Hid).
Defined.

(** With the client [book_db_crud] is built with (session never opened), [POST] on the database router answers 500 [Failed to create book] for every book, whatever the network and the database, and the table is unchanged. *)
Theorem db_create_book_deployed_fails :
  forall (open_lib_base open_lib_cover_url : string) (net : OpenLibrary.network)
         (eng : Relational.engine) (book : BookCreate) (d : Relational.db),
  Routes.db_create_book (Routes.deployed_client open_lib_base open_lib_cover_url) net eng book d =
    (Routes.HTTPException 500 "Failed to create book", d).
Proof.
  intros. unfold Routes.db_create_book, Relational.create.
  rewrite search_unopened by reflexivity. reflexivity.
Qed.

(** With that client, [create_with_external_data(fetch_external=False)] hands the caller's fields unchanged to the insert, which commits them under the next id when the database accepts the row; [fetch_external=True] raises [ValueError] and leaves the table unchanged. *)
Theorem deployed_create_only_without_fetch :
  forall (open_lib_base open_lib_cover_url : string) (net : OpenLibrary.network)
         (eng : Relational.engine) (obj : BookCreate) (d : Relational.db),
  Relational.create_with_external_data
      (Routes.deployed_client open_lib_base open_lib_cover_url) net eng obj false d =
    Relational.insert_row eng (model_dump obj) d /\
  (eng d (<["id" := JInt (Relational.next_seq d)]> (model_dump obj)) = Relational.Committed ->
   Relational.create_with_external_data
      (Routes.deployed_client open_lib_base open_lib_cover_url) net eng obj false d =
    (Ok (<["id" := JInt (Relational.next_seq d)]> (model_dump obj)),
     Relational.mkDb (Relational.rows d ++ [<["id" := JInt (Relational.next_seq d)]> (model_dump obj)])
       (Relational.next_seq d + 1))) /\
  Relational.create_with_external_data
      (Routes.deployed_client open_lib_base open_lib_cover_url) net eng obj true d =
    (Raise ValueError, d).
Proof.
  intros. split; [reflexivity|]. split.
  - intros Hc. cbn [Relational.create_with_external_data]. unfold Relational.insert_row.
    rewrite Hc. reflexivity.
  - unfold Relational.create_with_external_data, Relational.fetch_external_book_info.
    rewrite search_unopened by reflexivity. reflexivity.
Qed.

Lemma deployed_create_only_without_fetch_witness :
  Fixtures.pg Fixtures.db0 (<["id" := JInt (Relational.next_seq Fixtures.db0)]> (model_dump book_a))
    = Relational.Committed /\
  Relational.create_with_external_data
      (Routes.deployed_client "https://openlibrary.org" "https://covers.openlibrary.org/b")
      Fixtures.net_key_only Fixtures.pg book_a false Fixtures.db0 =
    (Ok (<["id" := JInt (Relational.next_seq Fixtures.db0)]> (model_dump book_a)),
     Relational.mkDb (Relational.rows Fixtures.db0 ++
                      [<["id" := JInt (Relational.next_seq Fixtures.db0)]> (model_dump book_a)])
       (Relational.next_seq Fixtures.db0 + 1)).
Proof.
  assert (Hc : Fixtures.pg Fixtures.db0
                 (<["id" := JInt (Relational.next_seq Fixtures.db0)]> (model_dump book_a))
               = Relational.Committed) by (vm_compute; reflexivity).
  split; [exact Hc|].
  exact (proj1 (proj2 (deployed_create_only_without_fetch "https://openlibrary.org"
                 "https://covers.openlibrary.org/b" Fixtures.net_key_only Fixtures.pg book_a
                 Fixtures.db0)) Hc).
Defined.

(** Both enrichment merges change only [cover_url], [description] and [rating]: every other field, [year] included, keeps the caller's value, since [model_dump()] always carries [year]. *)
Theorem create_merge_keeps_caller_fields :
  forall (obj : BookCreate) (info : option OpenLibrary.OpenLibraryBookInfo) (k : string),
  k <> "cover_url" -> k <> "description" -> k <> "rating" ->
  Relational.create_merge (model_dump obj) info !! k = model_dump obj !! k /\
  Relational.external_merge (model_dump obj) info !! k = model_dump obj !! k.
Proof.
  intros obj info k H1 H2 H3. destruct info as [i|]; [|split; reflexivity].
  assert (Hy : model_dump obj !! "year" = Some (JInt (bc_year obj))) by reflexivity.
  unfold Relational.create_merge, Relational.external_merge. cbv zeta.
  destruct (truthy (OpenLibrary.cover_url i)), (truthy (OpenLibrary.description i)),
    (Relational.is_not_none (OpenLibrary.rating i));
    rewrite ?lookup_insert_ne by (try discriminate; congruence); rewrite ?Hy;
    rewrite andb_false_r; rewrite ?lookup_insert_ne by congruence; split; reflexivity.
Qed.

Lemma create_merge_keeps_caller_fields_witness :
  ("year" <> "cover_url" /\ "year" <> "description" /\ "year" <> "rating") /\
  Relational.create_merge (model_dump Fixtures.caller_fields) (Some Fixtures.ext_example)
    !! "year" = model_dump Fixtures.caller_fields !! "year" /\
  Relational.external_merge (model_dump Fixtures.caller_fields) (Some Fixtures.ext_example)
    !! "year" = model_dump Fixtures.caller_fields !! "year".
Proof.
  split; [split; [discriminate| split; discriminate]|].
  apply create_merge_keeps_caller_fields; discriminate.
Defined.

Lemma string_append_cons (ch : ascii) (s t : string) :
  String.append (String ch s) t = String ch (String.append s t).
Proof. reflexivity. Qed.

Lemma string_append_nil_r (s : string) : String.append s EmptyString = s.
Proof. induction s as [|ch rest IH]; [reflexivity| rewrite !string_append_cons, IH; reflexivity]. Qed.

Lemma string_append_char (cur rest : string) (ch : ascii) :
  String.append (String.append cur (String ch EmptyString)) rest = String.append cur (String ch rest).
Proof. induction cur as [|c cur IH]; [reflexivity| rewrite !string_append_cons, IH; reflexivity]. Qed.

Lemma last_segment_no_slash (s : string) :
  forall cur, has_slash s = false -> OpenLibrary.last_segment_from cur s = String.append cur s.
Proof.
  induction s as [|ch rest IH]; intros cur H.
  - cbn [OpenLibrary.last_segment_from]. rewrite string_append_nil_r. reflexivity.
  - simpl in H. apply orb_false_iff in H as [Hc Hr]. cbn [OpenLibrary.last_segment_from]. rewrite Hc.
    rewrite IH by exact Hr. apply string_append_char.
Qed.

Lemma last_segment_after_slash (s1 : string) :
  forall cur s2, OpenLibrary.last_segment_from cur (String.append s1 (String "/"%char s2)) =
                 OpenLibrary.last_segment_from EmptyString s2.
Proof.
  induction s1 as [|ch rest IH]; intros cur s2; [reflexivity|].
  rewrite string_append_cons. cbn [OpenLibrary.last_segment_from]. destruct (Ascii.eqb ch "/"%char); apply IH.
Qed.

(** [key.split('/')[-1]] is the segment after the last slash: for a segment [s2] without slash, a key ending in ['/' + s2] gives [s2], and a key [s2] gives itself. *)
Theorem split_last_final_segment :
  forall s1 s2 : string, has_slash s2 = false ->
  OpenLibrary.split_last (JStr (String.append s1 (String "/"%char s2))) = Ok s2 /\
  OpenLibrary.split_last (JStr s2) = Ok s2.
Proof.
  intros s1 s2 H. unfold OpenLibrary.split_last.
  rewrite last_segment_after_slash, (last_segment_no_slash s2 EmptyString H).
  split; reflexivity.
Qed.

Lemma split_last_final_segment_witness :
  has_slash "OL1W" = false /\
  OpenLibrary.split_last (JStr (String.append "/works" (String "/"%char "OL1W"))) = Ok "OL1W" /\
  OpenLibrary.split_last (JStr "OL1W") = Ok "OL1W".
Proof. split; [reflexivity|]. apply split_last_final_segment. reflexivity. Defined.

Lemma rbind_ext {A B} (m : res A) (f g : A -> res B) :
  (forall a, f a = g a) -> rbind m f = rbind m g.
Proof. intros H. destruct m; simpl; [apply H | reflexivity]. Qed.

Lemma get_details_ext (c : OpenLibrary.client) (net1 net2 : OpenLibrary.network) (w : string) :
  net1 (String.append (OpenLibrary.base_url c) (OpenLibrary.details_endpoint w)) =
  net2 (String.append (OpenLibrary.base_url c) (OpenLibrary.details_endpoint w)) ->
  OpenLibrary.get_details c net1 w = OpenLibrary.get_details c net2 w.
Proof. intros H. unfold OpenLibrary.get_details, OpenLibrary.make_request. rewrite H. reflexivity. Qed.

Lemma process_book_ext (c : OpenLibrary.client) (net1 net2 : OpenLibrary.network) (b : json) :
  (forall w, net1 (String.append (OpenLibrary.base_url c) (OpenLibrary.details_endpoint w)) =
             net2 (String.append (OpenLibrary.base_url c) (OpenLibrary.details_endpoint w))) ->
  OpenLibrary.process_book c net1 b = OpenLibrary.process_book c net2 b.
Proof.
  intros H. unfold OpenLibrary.process_book. cbv zeta.
  apply rbind_ext; intros u. apply rbind_ext; intros hy. apply rbind_ext; intros r1.
  apply rbind_ext; intros hc. apply rbind_ext; intros r2.
  destruct b as [| | | | | |fs]; try reflexivity.
  destruct (OpenLibrary.obj_get "first_publish_year" fs); [reflexivity|].
  destruct (OpenLibrary.obj_get "cover_i" fs); [reflexivity|].
  destruct (OpenLibrary.obj_get "key" fs); [|reflexivity].
  apply rbind_ext; intros w. rewrite (get_details_ext c net1 net2 w (H w)). reflexivity.
Qed.

(** [search] reads the network only at its search URL and at work-details URLs: two networks that agree there give the same result. An empty author gives the same request as no author. *)
Theorem search_reads_only_its_urls :
  forall (c : OpenLibrary.client) (net1 net2 : OpenLibrary.network)
         (title : string) (author : option string),
  net1 (String.append (OpenLibrary.base_url c) (OpenLibrary.search_endpoint title author)) =
  net2 (String.append (OpenLibrary.base_url c) (OpenLibrary.search_endpoint title author)) ->
  (forall w, net1 (String.append (OpenLibrary.base_url c) (OpenLibrary.details_endpoint w)) =
             net2 (String.append (OpenLibrary.base_url c) (OpenLibrary.details_endpoint w))) ->
  OpenLibrary.search c net1 title author = OpenLibrary.search c net2 title author /\
  OpenLibrary.search c net1 title (Some "") = OpenLibrary.search c net1 title None.
Proof.
  intros c net1 net2 title author Hs Hd. split; [|reflexivity].
  assert (Hb : OpenLibrary.search_body c net1 title author =
               OpenLibrary.search_body c net2 title author).
  { unfold OpenLibrary.search_body, OpenLibrary.make_request.
    destruct (OpenLibrary.session_open c); [|reflexivity]. cbn [negb].
    rewrite Hs. apply rbind_ext; intros data.
    destruct data as [d|]; [|reflexivity].
    destruct (negb (truthy d)); [reflexivity|].
    destruct d as [| | | | | |fs]; try reflexivity.
    destruct (OpenLibrary.obj_get "docs" fs) as [docs|]; [|reflexivity].
    destruct (negb (truthy docs)); [reflexivity|].
    apply rbind_ext; intros book_data.
    rewrite (process_book_ext c net1 net2 book_data Hd). reflexivity. }
  unfold OpenLibrary.search. rewrite Hb. reflexivity.
Qed.

Lemma search_reads_only_its_urls_witness :
  (Fixtures.net_key_only (String.append (OpenLibrary.base_url Fixtures.cl)
       (OpenLibrary.search_endpoint "Dune" (Some "Herbert"))) =
   net_key_only_and_more (String.append (OpenLibrary.base_url Fixtures.cl)
       (OpenLibrary.search_endpoint "Dune" (Some "Herbert"))) /\
   (forall w, Fixtures.net_key_only (String.append (OpenLibrary.base_url Fixtures.cl)
                (OpenLibrary.details_endpoint w)) =
              net_key_only_and_more (String.append (OpenLibrary.base_url Fixtures.cl)
                (OpenLibrary.details_endpoint w)))) /\
  OpenLibrary.search Fixtures.cl Fixtures.net_key_only "Dune" (Some "Herbert") =
    OpenLibrary.search Fixtures.cl net_key_only_and_more "Dune" (Some "Herbert") /\
  OpenLibrary.search Fixtures.cl Fixtures.net_key_only "Dune" (Some "") =
    OpenLibrary.search Fixtures.cl Fixtures.net_key_only "Dune" None.
Proof.
  assert (H1 : Fixtures.net_key_only (String.append (OpenLibrary.base_url Fixtures.cl)
                 (OpenLibrary.search_endpoint "Dune" (Some "Herbert"))) =
               net_key_only_and_more (String.append (OpenLibrary.base_url Fixtures.cl)
                 (OpenLibrary.search_endpoint "Dune" (Some "Herbert"))))
    by (vm_compute; reflexivity).
  assert (H2 : forall w, Fixtures.net_key_only (String.append (OpenLibrary.base_url Fixtures.cl)
                 (OpenLibrary.details_endpoint w)) =
               net_key_only_and_more (String.append (OpenLibrary.base_url Fixtures.cl)
                 (OpenLibrary.details_endpoint w)))
    by (intros w; unfold net_key_only_and_more; reflexivity).
  split; [split; assumption|].
  exact (search_reads_only_its_urls Fixtures.cl Fixtures.net_key_only net_key_only_and_more
           "Dune" (Some "Herbert") H1 H2).
Defined.

(** With an open session, a search response that decodes to a truthy JSON value other than an object (a list, a string, a number) makes [search] raise [ValueError]. *)
Theorem search_non_object_body :
  forall (c : OpenLibrary.client) (net : OpenLibrary.network) (title : string)
         (author : option string) (j : json),
  OpenLibrary.session_open c = true ->
  net (String.append (OpenLibrary.base_url c) (OpenLibrary.search_endpoint title author)) =
    OpenLibrary.RespJson j ->
  truthy j = true -> (forall fs, j <> JObj fs) ->
  OpenLibrary.search c net title author = Raise ValueError.
Proof.
  intros c net title author j Hs Hn Ht Hj.
  unfold OpenLibrary.search, OpenLibrary.search_body, OpenLibrary.make_request.
  rewrite Hs. cbn [negb]. rewrite Hn. cbn [rbind]. rewrite Ht. cbn [negb].
  destruct j as [| | | | | |fs]; try reflexivity. exfalso. exact (Hj fs eq_refl).
Qed.

Lemma search_non_object_body_witness :
  (OpenLibrary.session_open Fixtures.cl = true /\
   net_list_body (String.append (OpenLibrary.base_url Fixtures.cl)
      (OpenLibrary.search_endpoint "Dune" None)) = OpenLibrary.RespJson (JArr [JStr "Dune"]) /\
   truthy (JArr [JStr "Dune"]) = true /\ (forall fs, JArr [JStr "Dune"] <> JObj fs)) /\
  OpenLibrary.search Fixtures.cl net_list_body "Dune" None = Raise ValueError.
Proof.
  assert (Hj : forall fs, JArr [JStr "Dune"] <> JObj fs) by (intros fs; discriminate).
  split; [split; [reflexivity| split; [reflexivity| split; [reflexivity| exact Hj]]]|].
  exact (search_non_object_body Fixtures.cl net_list_body "Dune" None _
           eq_refl eq_refl eq_refl Hj).
Defined.

(** [_process_details] never changes [cover_url] or [first_publish_year], and it leaves at least one of [description] and [rating] as it was. *)
Theorem process_details_changes_one_field :
  forall (details : json) (r : OpenLibrary.OpenLibraryBookInfo),
  OpenLibrary.cover_url (OpenLibrary.process_details details r) = OpenLibrary.cover_url r /\
  OpenLibrary.first_publish_year (OpenLibrary.process_details details r) =
    OpenLibrary.first_publish_year r /\
  (OpenLibrary.description (OpenLibrary.process_details details r) = OpenLibrary.description r \/
   OpenLibrary.rating (OpenLibrary.process_details details r) = OpenLibrary.rating r).
Proof.
  intros details r. unfold OpenLibrary.process_details, OpenLibrary.rating_case.
  repeat case_match; cbn; (split; [reflexivity| split; [reflexivity|]]);
    first [left; reflexivity | right; reflexivity].
Qed.

(** [get_details] raises [ValueError] when the session was never opened and never raises otherwise; a dict it returns is the truthy decoded body of the work-details URL. *)
Theorem get_details_outcomes :
  forall (c : OpenLibrary.client) (net : OpenLibrary.network) (w : string),
  (OpenLibrary.session_open c = false -> OpenLibrary.get_details c net w = Raise ValueError) /\
  (OpenLibrary.session_open c = true -> exists r, OpenLibrary.get_details c net w = Ok r) /\
  (forall j, OpenLibrary.get_details c net w = Ok (Some j) ->
     truthy j = true /\
     net (String.append (OpenLibrary.base_url c) (OpenLibrary.details_endpoint w)) =
       OpenLibrary.RespJson j).
Proof.
  intros c net w. unfold OpenLibrary.get_details, OpenLibrary.make_request.
  destruct (OpenLibrary.session_open c); cbn [negb].
  - split; [discriminate|]. split.
    + intros _. destruct (net _) as [j| |]; [destruct (truthy j)|..]; eexists; reflexivity.
    + intros j. destruct (net _) as [j'| |] eqn:En; [|discriminate..].
      destruct (truthy j') eqn:T; intros H; [|discriminate].
      injection H as <-. split; [exact T| reflexivity].
  - split; [reflexivity|]. split; [discriminate|]. intros j H. discriminate.
Qed.

Lemma get_details_outcomes_witness :
  OpenLibrary.get_details Fixtures.cl_unopened Fixtures.net_key_only "OL1W" = Raise ValueError /\
  (exists r, OpenLibrary.get_details Fixtures.cl Fixtures.net_key_only "OL1W" = Ok r) /\
  truthy Fixtures.details_d_r = true /\
  Fixtures.net_key_only (String.append (OpenLibrary.base_url Fixtures.cl)
      (OpenLibrary.details_endpoint "OL1W")) = OpenLibrary.RespJson Fixtures.details_d_r.
Proof.
  split; [exact (proj1 (get_details_outcomes Fixtures.cl_unopened Fixtures.net_key_only "OL1W")
                   eq_refl)|].
  split; [exact (proj1 (proj2 (get_details_outcomes Fixtures.cl Fixtures.net_key_only "OL1W"))
                   eq_refl)|].
  assert (H : OpenLibrary.get_details Fixtures.cl Fixtures.net_key_only "OL1W" =
              Ok (Some Fixtures.details_d_r)) by (vm_compute; reflexivity).
  exact (proj2 (proj2 (get_details_outcomes Fixtures.cl Fixtures.net_key_only "OL1W"))
           Fixtures.details_d_r H).
Defined.
